(** * Log analyzer: line parsing, filtering and statistics

    A shallow embedding of [main.go] of the log analyzer, and the
    properties of its line parser, level inference, filter and
    aggregation.

    Conventions of the embedding.
    - A Go [string] is a sequence of bytes: Rocq's [string], whose
      characters are the 256 values of [ascii].  [len], slicing and
      indexing are byte operations, as in Go.
    - Case mapping and white space follow the Go functions on their
      ASCII range; bytes from 128 on are left as they are (Go maps the
      letters and spaces beyond ASCII through the Unicode tables).
    - A pointer result ([*LogEntry]) is an [option]: [None] is [nil].
    - [time.Parse], [Time.AddDate], [time.Now] and [json.Unmarshal] belong to
      the Go library, not to the program; they are the operations of the
      class [Platform], and every theorem holds for all of its instances.
      The instance [goPlatform] follows the library on the layouts and
      documents that the examples use. *)

From Stdlib Require Import ZArith NArith Ascii String List Bool Lia.
From stdpp Require Import base option list gmap strings sorting.

Set Warnings "-register-all".
Local Open Scope Z_scope.
Local Open Scope string_scope.

(** ** The [strings] package, on bytes *)

Module Strings.

Definition code (c : ascii) : N := N_of_ascii c.

Definition in_range (lo hi : N) (c : ascii) : bool :=
  ((lo <=? code c) && (code c <=? hi))%N.

Definition is_lower (c : ascii) : bool := in_range 97 122 c.
Definition is_upper (c : ascii) : bool := in_range 65 90 c.
Definition is_digit (c : ascii) : bool := in_range 48 57 c.

(** [unicode.ToUpper] and [unicode.ToLower] on one byte. *)
Definition upper (c : ascii) : ascii :=
  if is_lower c then ascii_of_N (code c - 32) else c.
Definition lower (c : ascii) : ascii :=
  if is_upper c then ascii_of_N (code c + 32) else c.

Fixpoint smap (f : ascii -> ascii) (s : string) : string :=
  match s with
  | EmptyString => EmptyString
  | String c s' => String (f c) (smap f s')
  end.

Definition ToUpper (s : string) : string := smap upper s.
Definition ToLower (s : string) : string := smap lower s.

(** [len(s)] *)
Definition len (s : string) : Z := Z.of_nat (String.length s).

(** [strings.HasPrefix(s, prefix)] *)
Fixpoint HasPrefix (s prefix : string) : bool :=
  match prefix, s with
  | EmptyString, _ => true
  | String p prefix', String c s' =>
      if Ascii.eqb c p then HasPrefix s' prefix' else false
  | String _ _, EmptyString => false
  end.

(** [strings.Contains(s, substr)]: does [substr] start at some offset
    of [s]? *)
Fixpoint Contains (s substr : string) : bool :=
  if HasPrefix s substr then true
  else match s with
       | EmptyString => false
       | String _ s' => Contains s' substr
       end.

(** The slices [s[:n]] and [s[n:]], for [0 <= n <= len(s)]. *)
Fixpoint take (n : nat) (s : string) : string :=
  match n, s with
  | S n', String c s' => String c (take n' s')
  | _, _ => EmptyString
  end.

Fixpoint drop (n : nat) (s : string) : string :=
  match n, s with
  | S n', String _ s' => drop n' s'
  | _, _ => s
  end.

(** The white space of [strings.TrimSpace]: tab, line feed, vertical
    tab, form feed, carriage return and space. *)
Definition is_space (c : ascii) : bool :=
  in_range 9 13 c || (code c =? 32)%N.

Fixpoint TrimLeft (s : string) : string :=
  match s with
  | String c s' => if is_space c then TrimLeft s' else s
  | EmptyString => EmptyString
  end.

(** Dropping the trailing white space: a character is kept when it is
    not a space or when something is kept after it. *)
Fixpoint TrimRight (s : string) : string :=
  match s with
  | EmptyString => EmptyString
  | String c s' =>
      match TrimRight s' with
      | EmptyString => if is_space c then EmptyString else String c EmptyString
      | t => String c t
      end
  end.

Definition TrimSpace (s : string) : string := TrimRight (TrimLeft s).

End Strings.
Import Strings.

(** ** The [regexp] package: leftmost-first matching with submatches *)

Module Regexp.

(** The syntax the patterns of [logPatterns] need.  Every repetition
    there (plus, star, exact count) applies to a single character or
    class, so [Repeat] takes the class, the least and the greatest
    (if any) number of characters.  [Group i r] is the [i]-th pair of
    parentheses, counted by opening parenthesis from 1.

    The matcher reads bytes where Go reads runes.  For these patterns it
    is the same: their literals and positive classes are ASCII, and a
    rune beyond ASCII is a run of bytes from 128 on, each of which the
    negated classes and the dot accept as they accept the rune. *)
Inductive regex : Type :=
| Empty
| Chr (c : ascii)
| Class (p : ascii -> bool)
| Repeat (p : ascii -> bool) (lo : nat) (hi : option nat)
| Seq (r1 r2 : regex)
| Group (i : nat) (r : regex)
| BeginText
| EndText.

(** Character classes of the RE2 syntax: the Perl classes s, S, d and
    w, the dot (without the s flag) and a bracketed set of characters,
    negated or not. *)
Definition cls_s (c : ascii) : bool :=
  ((code c =? 9) || (code c =? 10) || (code c =? 12) || (code c =? 13)
   || (code c =? 32))%N.
Definition cls_S (c : ascii) : bool := negb (cls_s c).
Definition cls_d (c : ascii) : bool := is_digit c.
Definition cls_w (c : ascii) : bool :=
  is_digit c || is_upper c || is_lower c || (code c =? 95)%N.
Definition cls_dot (c : ascii) : bool := negb (code c =? 10)%N.
Definition cls_set (negated : bool) (l : list ascii) (c : ascii) : bool :=
  xorb negated (existsb (Ascii.eqb c) l).

Fixpoint cat (rs : list regex) : regex :=
  match rs with
  | [] => Empty
  | [r] => r
  | r :: rs' => Seq r (cat rs')
  end.

(** The number of parenthesised subexpressions ([Regexp.NumSubexp]). *)
Fixpoint NumSubexp (r : regex) : nat :=
  match r with
  | Seq r1 r2 => Nat.max (NumSubexp r1) (NumSubexp r2)
  | Group i r' => Nat.max i (NumSubexp r')
  | _ => 0%nat
  end.

(** *** [regexp.Compile], for the syntax above *)

(** A decimal number at the head of [s], with the rest. *)
Fixpoint digits (s : string) (acc : option nat) : option nat * string :=
  match s with
  | String c s' =>
      if is_digit c
      then digits s' (Some (10 * default 0 acc + N.to_nat (code c - 48)))%nat
      else (acc, s)
  | EmptyString => (acc, s)
  end.

(** The repetition operator that follows a character or class. *)
Definition quantified (p : ascii -> bool) (single : regex) (s : string)
    : option (regex * string) :=
  match s with
  | String "+" s' => Some (Repeat p 1 None, s')
  | String "*" s' => Some (Repeat p 0 None, s')
  | String "{" s' =>
      match digits s' None with
      | (Some n, String "}" s'') => Some (Repeat p n (Some n), s'')
      | _ => None
      end
  | String "?" _ => None
  | _ => Some (single, s)
  end.

(** A backslash escape: a Perl class or a quoted punctuation mark. *)
Definition escape (c : ascii) : option (ascii -> bool) + ascii :=
  if Ascii.eqb c "s" then inl (Some cls_s)
  else if Ascii.eqb c "S" then inl (Some cls_S)
  else if Ascii.eqb c "d" then inl (Some cls_d)
  else if Ascii.eqb c "w" then inl (Some cls_w)
  else if is_digit c || is_upper c || is_lower c then inl None
  else inr c.

(** The members of a bracketed set, up to the closing bracket. *)
Fixpoint set_members (s : string) (acc : list ascii) : option (list ascii * string) :=
  match s with
  | String "]" s' => match acc with [] => None | _ => Some (acc, s') end
  | String "\" (String c s') =>
      match escape c with
      | inr c' => set_members s' (acc ++ [c'])
      | inl _ => None
      end
  | String "-" _ => None
  | String c s' => set_members s' (acc ++ [c])
  | EmptyString => None
  end.

(** The pieces of a sequence, up to a closing parenthesis or the end;
    [n] counts the groups opened so far. *)
Fixpoint pieces (fuel : nat) (n : nat) (s : string)
    : option (list regex * nat * string) :=
  match fuel with
  | O => None
  | S fuel' =>
      let continue (r : regex) (n' : nat) (rest : string) :=
        '(rs, n'', rest') ← pieces fuel' n' rest; Some (r :: rs, n'', rest') in
      let single (p : ascii -> bool) (r : regex) (rest : string) :=
        '(r', rest') ← quantified p r rest; continue r' n rest' in
      match s with
      | EmptyString => Some ([], n, s)
      | String ")" _ => Some ([], n, s)
      | String "(" s1 =>
          '(rs, n1, s2) ← pieces fuel' (S n) s1;
          match s2 with
          | String ")" s3 =>
              match s3 with
              | String "+" _ | String "*" _ | String "?" _ | String "{" _ => None
              | _ => continue (Group (S n) (cat rs)) n1 s3
              end
          | _ => None
          end
      | String "[" (String "^" s1) =>
          '(l, s2) ← set_members s1 []; single (cls_set true l) (Class (cls_set true l)) s2
      | String "[" s1 =>
          '(l, s2) ← set_members s1 []; single (cls_set false l) (Class (cls_set false l)) s2
      | String "\" (String c s1) =>
          match escape c with
          | inl (Some p) => single p (Class p) s1
          | inl None => None
          | inr c' => single (Ascii.eqb c') (Chr c') s1
          end
      | String "^" s1 => continue BeginText n s1
      | String "$" s1 => continue EndText n s1
      | String "." s1 => single cls_dot (Class cls_dot) s1
      | String "|" _ | String "*" _ | String "+" _ | String "?" _
      | String "\" EmptyString => None
      | String c s1 => single (Ascii.eqb c) (Chr c) s1
      end
  end.

(** [None] is a compile error; so is syntax beyond the one above. *)
Definition Compile (pattern : string) : option regex :=
  match pieces (S (String.length pattern)) 0 pattern with
  | Some (rs, _, EmptyString) => Some (cat rs)
  | _ => None
  end.

(** *** Matching *)

Definition below (hi : option nat) (n : nat) : bool :=
  match hi with
  | None => true
  | Some h => (n <? h)%nat
  end.

Section Exec.
Context {R : Type}.

(** Greedy repetition of a class with backtracking: [n] characters
    are taken already; take one more when possible and, when the rest
    of the pattern then fails, give it back. *)
Fixpoint rep (p : ascii -> bool) (lo : nat) (hi : option nat) (n : nat)
    (s : string) (k : string -> option R) : option R :=
  let stop := if (lo <=? n)%nat then k s else None in
  match s with
  | String c s' =>
      if p c && below hi n then
        match rep p lo hi (S n) s' k with
        | Some res => Some res
        | None => stop
        end
      else stop
  | EmptyString => stop
  end.
End Exec.

(** The text between two positions of the input, given as the suffixes
    that start there. *)
Definition consumed (s s' : string) : string :=
  take (String.length s - String.length s') s.

(** Matching [r] at the suffix [s] of [input]; [caps] are the
    submatches so far and [k] is the rest of the pattern. *)
Fixpoint exec (input : string) (r : regex) (s : string) (caps : list string)
    (k : string -> list string -> option (list string)) : option (list string) :=
  match r with
  | Empty => k s caps
  | Chr c =>
      match s with
      | String c' s' => if Ascii.eqb c' c then k s' caps else None
      | EmptyString => None
      end
  | Class p =>
      match s with
      | String c' s' => if p c' then k s' caps else None
      | EmptyString => None
      end
  | Repeat p lo hi => rep p lo hi 0 s (fun s' => k s' caps)
  | Seq r1 r2 => exec input r1 s caps (fun s' caps' => exec input r2 s' caps' k)
  | Group i r' =>
      exec input r' s caps (fun s' caps' => k s' (<[i := consumed s s']> caps'))
  | BeginText =>
      if (String.length s =? String.length input)%nat then k s caps else None
  | EndText =>
      match s with
      | EmptyString => k s caps
      | String _ _ => None
      end
  end.

(** A match that starts at the suffix [s]: element 0 is the matched
    text, element [i] the text of group [i]. *)
Definition match_at (input : string) (r : regex) (s : string) : option (list string) :=
  exec input r s (replicate (S (NumSubexp r)) "")
    (fun s' caps => Some (<[0%nat := consumed s s']> caps)).

(** The leftmost match: the start positions are tried from the left. *)
Fixpoint find_from (input : string) (r : regex) (s : string) : option (list string) :=
  match match_at input r s with
  | Some ms => Some ms
  | None =>
      match s with
      | EmptyString => None
      | String _ s' => find_from input r s'
      end
  end.

(** [Regexp.FindStringSubmatch]: [None] is the [nil] slice. *)
Definition FindStringSubmatch (r : regex) (s : string) : option (list string) :=
  find_from s r s.

End Regexp.
Import Regexp.

(** The double quote, and a string of it. *)
Definition dquote : ascii := "034"%char.
Definition DQ : string := String dquote "".

(** ** Common log patterns

    The table [logPatterns] of the source.  A double quote inside a
    pattern is spelled [DQ]. *)

Definition logPatterns : list (string * string) :=
  [("apache",
    "^(\S+) \S+ \S+ \[([^\]]+)\] " +:+ DQ +:+ "([^" +:+ DQ +:+ "]*)" +:+ DQ +:+ " (\d+) (\d+)");
   ("nginx",
    "^(\S+) - - \[([^\]]+)\] " +:+ DQ +:+ "([^" +:+ DQ +:+ "]*)" +:+ DQ +:+ " (\d+) (\d+) "
      +:+ DQ +:+ "([^" +:+ DQ +:+ "]*)" +:+ DQ +:+ " " +:+ DQ +:+ "([^" +:+ DQ +:+ "]*)" +:+ DQ);
   ("syslog", "^(\w+\s+\d+\s+\d+:\d+:\d+) (\S+) ([^:]+): (.*)");
   ("generic", "^(\d{4}-\d{2}-\d{2}\s+\d{2}:\d{2}:\d{2})\s+\[(\w+)\]\s+(.*)");
   ("json", "^\{.*\}$")].

(** The five patterns as syntax trees. *)
Definition plus (p : ascii -> bool) : regex := Repeat p 1 None.
Definition star (p : ascii -> bool) : regex := Repeat p 0 None.
Definition exactly (n : nat) (p : ascii -> bool) : regex := Repeat p n (Some n).
Definition none_of (c : ascii) : ascii -> bool := cls_set true [c].

Definition pattern_apache : regex :=
  cat [BeginText;
       Group 1 (plus cls_S); Chr " "; plus cls_S; Chr " "; plus cls_S; Chr " ";
       Chr "["; Group 2 (plus (none_of "]")); Chr "]"; Chr " ";
       Chr dquote; Group 3 (star (none_of dquote)); Chr dquote; Chr " ";
       Group 4 (plus cls_d); Chr " "; Group 5 (plus cls_d)].

Definition pattern_nginx : regex :=
  cat [BeginText;
       Group 1 (plus cls_S); Chr " "; Chr "-"; Chr " "; Chr "-"; Chr " ";
       Chr "["; Group 2 (plus (none_of "]")); Chr "]"; Chr " ";
       Chr dquote; Group 3 (star (none_of dquote)); Chr dquote; Chr " ";
       Group 4 (plus cls_d); Chr " "; Group 5 (plus cls_d); Chr " ";
       Chr dquote; Group 6 (star (none_of dquote)); Chr dquote; Chr " ";
       Chr dquote; Group 7 (star (none_of dquote)); Chr dquote].

Definition pattern_syslog : regex :=
  cat [BeginText;
       Group 1 (cat [plus cls_w; plus cls_s; plus cls_d; plus cls_s;
                     plus cls_d; Chr ":"; plus cls_d; Chr ":"; plus cls_d]);
       Chr " "; Group 2 (plus cls_S); Chr " ";
       Group 3 (plus (none_of ":")); Chr ":"; Chr " "; Group 4 (star cls_dot)].

Definition pattern_generic : regex :=
  cat [BeginText;
       Group 1 (cat [exactly 4 cls_d; Chr "-"; exactly 2 cls_d; Chr "-";
                     exactly 2 cls_d; plus cls_s;
                     exactly 2 cls_d; Chr ":"; exactly 2 cls_d; Chr ":";
                     exactly 2 cls_d]);
       plus cls_s; Chr "["; Group 2 (plus cls_w); Chr "]"; plus cls_s;
       Group 3 (star cls_dot)].

Definition pattern_json : regex :=
  cat [BeginText; Chr "{"; star cls_dot; Chr "}"; EndText].

(** ** The [time] and [encoding/json] packages *)

(** A [time.Time] is its instant: the nanoseconds since January 1 of
    year 1, 00:00:00 UTC, which is the zero value of the type.  The
    location only matters to formatting, which is not modelled. *)
Definition Time : Type := Z.

Definition IsZero (t : Time) : bool := (t =? 0)%Z.
Definition Before (t u : Time) : bool := (t <? u)%Z.
Definition After (t u : Time) : bool := (t >? u)%Z.

(** A decoded JSON value, as [json.Unmarshal] stores it in an
    [interface{}]; a number keeps its text. *)
Inductive JSON : Type :=
| JNull
| JBool (b : bool)
| JNumber (text : string)
| JString (s : string)
| JArray (l : list JSON)
| JObject (members : list (string * JSON)).

(** The library operations the analyzer calls. *)
Class Platform : Type := {
  (** [time.Parse(layout, value)]; [None] is an error. *)
  time_Parse : string -> string -> option Time;
  (** [t.AddDate(years, months, days)] *)
  AddDate : Time -> Z -> Z -> Z -> Time;
  (** [time.Now().Year()] *)
  time_Now_Year : Z;
  (** [json.Unmarshal] of a line into a [map[string]interface{}];
      [None] is an error. *)
  json_Unmarshal : string -> option (gmap string JSON)
}.

Definition RFC3339 : string := "2006-01-02T15:04:05Z07:00".

(** The type assertion [v.(string)] on the result of a map lookup. *)
Definition as_string (v : option JSON) : option string :=
  match v with
  | Some (JString s) => Some s
  | _ => None
  end.

(** [strconv.Atoi]: an optional sign and decimal digits, within the
    range of a 64-bit [int]. *)
Fixpoint decimal (s : string) (acc : Z) : option Z :=
  match s with
  | EmptyString => Some acc
  | String c s' =>
      if is_digit c then decimal s' (10 * acc + Z.of_N (code c - 48)) else None
  end.

Definition Atoi (s : string) : option Z :=
  let unsigned (d : string) :=
    match d with
    | EmptyString => None
    | _ => decimal d 0
    end in
  n ← match s with
      | String "-" d => Z.opp <$> unsigned d
      | String "+" d => unsigned d
      | _ => unsigned s
      end;
  if ((- 2 ^ 63 <=? n) && (n <=? 2 ^ 63 - 1))%Z then Some n else None.

(** ** Data of the analyzer *)

Record LogEntry : Type := {
  Timestamp : Time;
  Level : string;
  Message : string;
  Source : string;
  Raw : string
}.

Record Filters : Type := {
  FLevel : string;
  StartTime : option Time;
  EndTime : option Time;
  FSource : string;
  Keyword : string
}.

Record LogAnalyzer : Type := {
  entries : list LogEntry;
  patterns : gmap string regex;
  filters : Filters
}.

(** [LogStats]; the time range is kept as the pair of instants that
    [showStats] formats into [TimeRange] ([None] is the empty string). *)
Record LogStats : Type := {
  TotalLines : Z;
  ErrorCount : Z;
  WarnCount : Z;
  InfoCount : Z;
  DebugCount : Z;
  TimeRange : option (Time * Time);
  TopSources : gmap string Z;
  TopErrors : gmap string Z
}.

(** Field updates of an entry. *)
Definition set_Timestamp (t : Time) (e : LogEntry) : LogEntry :=
  {| Timestamp := t; Level := Level e; Message := Message e; Source := Source e; Raw := Raw e |}.
Definition set_Level (l : string) (e : LogEntry) : LogEntry :=
  {| Timestamp := Timestamp e; Level := l; Message := Message e; Source := Source e; Raw := Raw e |}.
Definition set_Message (m : string) (e : LogEntry) : LogEntry :=
  {| Timestamp := Timestamp e; Level := Level e; Message := m; Source := Source e; Raw := Raw e |}.
Definition set_Source (s : string) (e : LogEntry) : LogEntry :=
  {| Timestamp := Timestamp e; Level := Level e; Message := Message e; Source := s; Raw := Raw e |}.

(** The composite literals [LogEntry{Raw: line}] and
    [LogEntry{Raw: line, Message: line}]. *)
Definition entry_Raw (line : string) : LogEntry :=
  {| Timestamp := 0; Level := ""; Message := ""; Source := ""; Raw := line |}.
Definition entry_Raw_Message (line : string) : LogEntry :=
  {| Timestamp := 0; Level := ""; Message := line; Source := ""; Raw := line |}.

Definition no_filters : Filters :=
  {| FLevel := ""; StartTime := None; EndTime := None; FSource := ""; Keyword := "" |}.

Definition NewLogAnalyzer : LogAnalyzer :=
  {| entries := [];
     patterns :=
       foldl (fun m '(name, pattern) =>
                match Compile pattern with
                | Some regex => <[name := regex]> m
                | None => m
                end) ∅ logPatterns;
     filters := no_filters |}.

(** The element [matches[i]], read under a test of [len(matches)]. *)
Definition at_index (matches : list string) (i : nat) : string :=
  default "" (matches !! i).

Definition slen {A : Type} (l : list A) : Z := Z.of_nat (length l).

(** ** The analyzer *)

Section Analyzer.
Context {P : Platform}.

Definition inferLogLevel (la : LogAnalyzer) (message : string) : string :=
  let message := ToUpper message in
  if Contains message "ERROR" || Contains message "FATAL" || Contains message "CRITICAL"
  then "ERROR"
  else if Contains message "WARN" || Contains message "WARNING"
  then "WARN"
  else if Contains message "DEBUG" || Contains message "TRACE"
  then "DEBUG"
  else "INFO".

Definition parseJSON (la : LogAnalyzer) (line : string) : option LogEntry :=
  match json_Unmarshal line with
  | None => Some (entry_Raw_Message line)
  | Some jsonData =>
      let entry := entry_Raw line in
      (* Try to extract common fields *)
      let entry :=
        match as_string (jsonData !! "timestamp") with
        | Some timestamp =>
            match time_Parse RFC3339 timestamp with
            | Some t => set_Timestamp t entry
            | None => entry
            end
        | None => entry
        end in
      let entry :=
        match as_string (jsonData !! "level") with
        | Some level => set_Level (ToUpper level) entry
        | None => entry
        end in
      let entry :=
        match as_string (jsonData !! "message") with
        | Some message => set_Message message entry
        | None =>
            match as_string (jsonData !! "msg") with
            | Some msg => set_Message msg entry
            | None => entry
            end
        end in
      let entry :=
        match as_string (jsonData !! "source") with
        | Some source => set_Source source entry
        | None =>
            match as_string (jsonData !! "component") with
            | Some component => set_Source component entry
            | None => entry
            end
        end in
      Some entry
  end.

Definition parseWithPattern (la : LogAnalyzer) (line patternName : string)
    (matches : list string) : option LogEntry :=
  let entry := entry_Raw line in
  Some
    (if (patternName =? "generic")%string then
       if (slen matches >=? 4)%Z then
         let entry :=
           match time_Parse "2006-01-02 15:04:05" (at_index matches 1) with
           | Some t => set_Timestamp t entry
           | None => entry
           end in
         let entry := set_Level (ToUpper (at_index matches 2)) entry in
         set_Message (at_index matches 3) entry
       else entry
     else if (patternName =? "syslog")%string then
       if (slen matches >=? 5)%Z then
         let entry :=
           match time_Parse "Jan 2 15:04:05" (at_index matches 1) with
           | Some t =>
               (* Add current year since syslog doesn't include it *)
               set_Timestamp (AddDate t time_Now_Year 0 0) entry
           | None => entry
           end in
         let entry := set_Source (at_index matches 2) entry in
         let entry := set_Message (at_index matches 4) entry in
         set_Level (inferLogLevel la (at_index matches 4)) entry
       else entry
     else if (patternName =? "apache")%string || (patternName =? "nginx")%string then
       if (slen matches >=? 4)%Z then
         let entry := set_Source (at_index matches 1) entry in
         let entry :=
           match time_Parse "02/Jan/2006:15:04:05 -0700" (at_index matches 2) with
           | Some t => set_Timestamp t entry
           | None => entry
           end in
         let entry := set_Message (at_index matches 3) entry in
         (* Infer level from HTTP status code *)
         if (slen matches >=? 5)%Z then
           match Atoi (at_index matches 4) with
           | Some status =>
               if (status >=? 500)%Z then set_Level "ERROR" entry
               else if (status >=? 400)%Z then set_Level "WARN" entry
               else set_Level "INFO" entry
           | None => entry
           end
         else entry
       else entry
     else entry).

Definition timePatterns : list string :=
  ["2006-01-02 15:04:05";
   "2006/01/02 15:04:05";
   "Jan 2 15:04:05";
   "2006-01-02T15:04:05Z07:00"].

(** The loop of [parseGeneric] over the remaining time patterns; the
    first pattern that parses ends it ([break]). *)
Fixpoint parseGeneric_loop (line : string) (remaining : list string)
    (entry : LogEntry) : LogEntry :=
  match remaining with
  | [] => entry
  | pattern :: remaining' =>
      if (len line >=? len pattern)%Z then
        match time_Parse pattern (take (String.length pattern) line) with
        | Some t =>
            let entry := set_Timestamp t entry in
            if (len line >? len pattern + 1)%Z
            then set_Message (TrimSpace (drop (String.length pattern + 1) line)) entry
            else entry
        | None => parseGeneric_loop line remaining' entry
        end
      else parseGeneric_loop line remaining' entry
  end.

Definition parseGeneric (la : LogAnalyzer) (line : string) : option LogEntry :=
  let entry := entry_Raw_Message line in
  (* Try to find timestamp at beginning of line *)
  let entry := parseGeneric_loop line timePatterns entry in
  (* Infer log level from message content *)
  Some (set_Level (inferLogLevel la (Message entry)) entry).

(** The loop of [parseLine] over the pattern names, and the fallback
    that follows it. *)
Fixpoint parseLine_loop (la : LogAnalyzer) (line : string) (names : list string)
    : option LogEntry :=
  match names with
  | [] =>
      (* Fallback: treat as plain text with timestamp detection *)
      parseGeneric la line
  | patternName :: names' =>
      match patterns la !! patternName with
      | Some regex =>
          match FindStringSubmatch regex line with
          | Some matches => parseWithPattern la line patternName matches
          | None => parseLine_loop la line names'
          end
      | None => parseLine_loop la line names'
      end
  end.

Definition parseLine (la : LogAnalyzer) (line format : string) : option LogEntry :=
  if (format =? "json")%string
     || ((format =? "auto")%string && HasPrefix (TrimSpace line) "{")
  then parseJSON la line
  else
    (* Try different patterns based on format *)
    let names :=
      if (format =? "auto")%string
      then ["generic"; "syslog"; "apache"; "nginx"]
      else [format] in
    parseLine_loop la line names.

Definition set_entries (es : list LogEntry) (la : LogAnalyzer) : LogAnalyzer :=
  {| entries := es; patterns := patterns la; filters := filters la |}.
Definition set_filters (f : Filters) (la : LogAnalyzer) : LogAnalyzer :=
  {| entries := entries la; patterns := patterns la; filters := f |}.

(** [parseFile], on the lines the scanner yields. *)
Definition parseFile (la : LogAnalyzer) (lines : list string) (format : string)
    : LogAnalyzer :=
  foldl (fun la line =>
           match parseLine la line format with
           | Some entry => set_entries (entries la ++ [entry])%list la
           | None => la
           end) la lines.

(** The tests of one entry against a time bound. *)
Definition before_start (f : Filters) (entry : LogEntry) : bool :=
  match StartTime f with
  | Some start => negb (IsZero (Timestamp entry)) && Before (Timestamp entry) start
  | None => false
  end.
Definition after_end (f : Filters) (entry : LogEntry) : bool :=
  match EndTime f with
  | Some end_ => negb (IsZero (Timestamp entry)) && After (Timestamp entry) end_
  | None => false
  end.

Definition filterEntries (la : LogAnalyzer) : list LogEntry :=
  foldl (fun filtered entry =>
           if negb (FLevel (filters la) =? "")%string
              && negb (Level entry =? FLevel (filters la))%string
           then filtered (* continue *)
           else if negb (FSource (filters la) =? "")%string
                   && negb (Contains (ToLower (Source entry)) (ToLower (FSource (filters la))))
           then filtered
           else if negb (Keyword (filters la) =? "")%string
                   && negb (Contains (ToLower (Message entry)) (ToLower (Keyword (filters la))))
           then filtered
           else if before_start (filters la) entry then filtered
           else if after_end (filters la) entry then filtered
           else (filtered ++ [entry])%list)
        [] (entries la).

(** [getHead] and [getTail]; [main] calls them with [n > 0]. *)
Definition getHead (la : LogAnalyzer) (entries : list LogEntry) (n : Z) : list LogEntry :=
  if (n >=? slen entries)%Z then entries else List.firstn (Z.to_nat n) entries.

Definition getTail (la : LogAnalyzer) (entries : list LogEntry) (n : Z) : list LogEntry :=
  if (n >=? slen entries)%Z then entries
  else List.skipn (Z.to_nat (slen entries - n)) entries.

Definition matchesFilters (la : LogAnalyzer) (entry : LogEntry) : bool :=
  if negb (FLevel (filters la) =? "")%string
     && negb (Level entry =? FLevel (filters la))%string
  then false
  else if negb (FSource (filters la) =? "")%string
          && negb (Contains (ToLower (Source entry)) (ToLower (FSource (filters la))))
  then false
  else if negb (Keyword (filters la) =? "")%string
          && negb (Contains (ToLower (Message entry)) (ToLower (Keyword (filters la))))
  then false
  else if before_start (filters la) entry then false
  else if after_end (filters la) entry then false
  else true.

End Analyzer.

(** ** Statistics *)

(** [m[k]++] on a [map[string]int]. *)
Definition incr (k : string) (m : gmap string Z) : gmap string Z :=
  <[k := default 0 (m !! k) + 1]> m.

Definition stats_zero (total : Z) : LogStats :=
  {| TotalLines := total; ErrorCount := 0; WarnCount := 0; InfoCount := 0;
     DebugCount := 0; TimeRange := None; TopSources := ∅; TopErrors := ∅ |}.

(** The [switch entry.Level] of [showStats]. *)
Definition count_level (entry : LogEntry) (s : LogStats) : LogStats :=
  if (Level entry =? "ERROR")%string then
    {| TotalLines := TotalLines s; ErrorCount := ErrorCount s + 1;
       WarnCount := WarnCount s; InfoCount := InfoCount s; DebugCount := DebugCount s;
       TimeRange := TimeRange s; TopSources := TopSources s;
       TopErrors := incr (Message entry) (TopErrors s) |}
  else if (Level entry =? "WARN")%string then
    {| TotalLines := TotalLines s; ErrorCount := ErrorCount s;
       WarnCount := WarnCount s + 1; InfoCount := InfoCount s; DebugCount := DebugCount s;
       TimeRange := TimeRange s; TopSources := TopSources s; TopErrors := TopErrors s |}
  else if (Level entry =? "INFO")%string then
    {| TotalLines := TotalLines s; ErrorCount := ErrorCount s;
       WarnCount := WarnCount s; InfoCount := InfoCount s + 1; DebugCount := DebugCount s;
       TimeRange := TimeRange s; TopSources := TopSources s; TopErrors := TopErrors s |}
  else if (Level entry =? "DEBUG")%string then
    {| TotalLines := TotalLines s; ErrorCount := ErrorCount s;
       WarnCount := WarnCount s; InfoCount := InfoCount s; DebugCount := DebugCount s + 1;
       TimeRange := TimeRange s; TopSources := TopSources s; TopErrors := TopErrors s |}
  else s.

Definition count_source (entry : LogEntry) (s : LogStats) : LogStats :=
  if negb (Source entry =? "")%string then
    {| TotalLines := TotalLines s; ErrorCount := ErrorCount s;
       WarnCount := WarnCount s; InfoCount := InfoCount s; DebugCount := DebugCount s;
       TimeRange := TimeRange s; TopSources := incr (Source entry) (TopSources s);
       TopErrors := TopErrors s |}
  else s.

(** The variables of the loop of [showStats]. *)
Record stats_loop : Type := {
  stats : LogStats;
  earliest : Time;
  latest : Time
}.

Definition showStats_step (st : stats_loop) (entry : LogEntry) : stats_loop :=
  let s := count_source entry (count_level entry (stats st)) in
  if negb (IsZero (Timestamp entry)) then
    {| stats := s;
       earliest :=
         if IsZero (earliest st) || Before (Timestamp entry) (earliest st)
         then Timestamp entry else earliest st;
       latest :=
         if IsZero (latest st) || After (Timestamp entry) (latest st)
         then Timestamp entry else latest st |}
  else {| stats := s; earliest := earliest st; latest := latest st |}.

(** [showStats], up to the statistics it prints.  The counters are Go
    [int]s; none exceeds [len(la.entries)], so none wraps around. *)
Definition showStats (la : LogAnalyzer) : LogStats :=
  let st :=
    foldl showStats_step
      {| stats := stats_zero (slen (entries la)); earliest := 0; latest := 0 |}
      (entries la) in
  let s := stats st in
  {| TotalLines := TotalLines s; ErrorCount := ErrorCount s;
     WarnCount := WarnCount s; InfoCount := InfoCount s; DebugCount := DebugCount s;
     TimeRange :=
       if negb (IsZero (earliest st)) && negb (IsZero (latest st))
       then Some (earliest st, latest st) else TimeRange s;
     TopSources := TopSources s; TopErrors := TopErrors s |}.

(** *** [printTopMap] *)

(** The [kv] pairs: key and value. *)
Definition kv : Type := string * Z.

(** The comparison handed to [sort.Slice]: [ss[i].Value > ss[j].Value]. *)
Definition less (a b : kv) : bool := (a.2 >? b.2)%Z.

(** What [sort.Slice] guarantees of the slice it leaves: the same
    elements, none of which is less than one before it.  The order of
    equal elements is not specified (the sort is not stable). *)
Definition sort_Slice (lt : kv -> kv -> bool) (ss sorted : list kv) : Prop :=
  sorted ≡ₚ ss /\ StronglySorted (fun a b => lt b a = false) sorted.

(** The printing loop, from index [i]: it stops at [limit]. *)
Fixpoint print_loop (i : Z) (ss : list kv) (limit : Z) : list kv :=
  match ss with
  | [] => []
  | x :: ss' => if (i >=? limit)%Z then [] else x :: print_loop (i + 1) ss' limit
  end.

(** The lines [printTopMap] can print: [range] yields the pairs of the
    map in an order of its choice. *)
Inductive printTopMap (la : LogAnalyzer) (m : gmap string Z) (limit : Z)
    : list kv -> Prop :=
| printTopMap_run (ss sorted : list kv) :
    ss ≡ₚ map_to_list m ->
    sort_Slice less ss sorted ->
    printTopMap la m limit (print_loop 0 sorted limit).

(** One run of it: the pairs in the order of [map_to_list], sorted by
    insertion, which keeps pairs of equal value in their order. *)
Fixpoint insert_sorted (x : kv) (l : list kv) : list kv :=
  match l with
  | [] => [x]
  | y :: l' => if less y x then y :: insert_sorted x l' else x :: l
  end.

Definition stable_sort (l : list kv) : list kv := foldr insert_sorted [] l.

Definition top_of (m : gmap string Z) (limit : Z) : list kv :=
  print_loop 0 (stable_sort (map_to_list m)) limit.

(** ** [main] *)

Record Flags : Type := {
  filename : string;
  format : string;
  level : string;
  source : string;
  keyword : string;
  startTime : string;
  endTime : string;
  flag_stats : bool;
  tail : Z;
  head : Z;
  follow : bool;
  output : string;
  verbose : bool
}.

(** What a run does: the usage message, a fatal error, following the
    file, the statistics report or the entries handed to
    [outputEntries]. *)
Inductive Outcome : Type :=
| Usage
| Fatal
| Following
| Statistics (s : LogStats)
| Entries (es : list LogEntry) (output : string) (verbose : bool).

Section Main.
Context {P : Platform}.

(** A time bound of the command line: [inl] is [log.Fatalf]. *)
Definition time_flag (s : string) : unit + option Time :=
  if negb (s =? "")%string then
    match time_Parse "2006-01-02 15:04:05" s with
    | Some t => inr (Some t)
    | None => inl tt
    end
  else inr None.

(** [main]; [file] holds the lines of the file, [None] when it cannot
    be opened. *)
Definition main (fl : Flags) (file : option (list string)) : Outcome :=
  if (filename fl =? "")%string then Usage
  else
    let analyzer := NewLogAnalyzer in
    (* Parse time filters *)
    match time_flag (startTime fl), time_flag (endTime fl) with
    | inl _, _ => Fatal
    | inr _, inl _ => Fatal
    | inr start, inr end_ =>
        let filters :=
          {| FLevel := ToUpper (level fl); FSource := source fl;
             Keyword := keyword fl; StartTime := start; EndTime := end_ |} in
        let analyzer := set_filters filters analyzer in
        if follow fl then Following
        else
          match file with
          | None => Fatal
          | Some lines =>
              let analyzer := parseFile analyzer lines (format fl) in
              let filteredEntries := filterEntries analyzer in
              if flag_stats fl then Statistics (showStats analyzer)
              else
                let filteredEntries :=
                  if (head fl >? 0)%Z then getHead analyzer filteredEntries (head fl)
                  else if (tail fl >? 0)%Z then getTail analyzer filteredEntries (tail fl)
                  else filteredEntries in
                Entries filteredEntries (output fl) (verbose fl)
          end
    end.

(** One line of [followFile]: the entry it prints, if any. *)
Definition follow_line (la : LogAnalyzer) (line format : string) : option LogEntry :=
  match parseLine la line format with
  | Some entry => if matchesFilters la entry then Some entry else None
  | None => None
  end.

End Main.

(** ** The library on the analyzer's layouts: [time] *)

Module GoTime.

Local Open Scope Z_scope.

(** The elements of a layout. *)
Inductive chunk : Type :=
| Lit (prefix : string)
| stdLongYear          (* 2006 *)
| stdZeroMonth         (* 01 *)
| stdMonth             (* Jan *)
| stdDay               (* 2 *)
| stdZeroDay           (* 02 *)
| stdHour              (* 15 *)
| stdZeroMinute        (* 04 *)
| stdZeroSecond        (* 05 *)
| stdISO8601ColonTZ    (* Z07:00 *)
| stdNumTZ.            (* -0700 *)

(** The layouts the analyzer passes to [time.Parse], cut into their
    elements; no other layout reaches it. *)
Definition chunks (layout : string) : option (list chunk) :=
  let clock := [stdHour; Lit ":"; stdZeroMinute; Lit ":"; stdZeroSecond] in
  if (layout =? "2006-01-02 15:04:05")%string then
    Some ([stdLongYear; Lit "-"; stdZeroMonth; Lit "-"; stdZeroDay; Lit " "] ++ clock)%list
  else if (layout =? "2006/01/02 15:04:05")%string then
    Some ([stdLongYear; Lit "/"; stdZeroMonth; Lit "/"; stdZeroDay; Lit " "] ++ clock)%list
  else if (layout =? "Jan 2 15:04:05")%string then
    Some ([stdMonth; Lit " "; stdDay; Lit " "] ++ clock)%list
  else if (layout =? "2006-01-02T15:04:05Z07:00")%string then
    Some ([stdLongYear; Lit "-"; stdZeroMonth; Lit "-"; stdZeroDay; Lit "T"]
            ++ clock ++ [stdISO8601ColonTZ])%list
  else if (layout =? "02/Jan/2006:15:04:05 -0700")%string then
    Some ([stdZeroDay; Lit "/"; stdMonth; Lit "/"; stdLongYear; Lit ":"]
            ++ clock ++ [Lit " "; stdNumTZ])%list
  else None.

Definition digit_at (s : string) (i : nat) : option Z :=
  match String.get i s with
  | Some c => if is_digit c then Some (Z.of_N (code c - 48)) else None
  | None => None
  end.

(** [getnum]: one or two digits, two when [fixed]. *)
Definition getnum (s : string) (fixed : bool) : option (Z * string) :=
  match digit_at s 0, digit_at s 1 with
  | Some a, Some b => Some (10 * a + b, drop 2 s)
  | Some a, None => if fixed then None else Some (a, drop 1 s)
  | None, _ => None
  end.

Fixpoint cutspace (s : string) : string :=
  match s with
  | String " " s' => cutspace s'
  | _ => s
  end.

(** [skip]: the literal text of the layout; a run of spaces stands for
    any run of spaces. *)
Fixpoint skip (fuel : nat) (value prefix : string) : option string :=
  match fuel, prefix with
  | _, EmptyString => Some value
  | O, _ => None
  | S fuel', String " " _ =>
      match value with
      | String c _ =>
          if Ascii.eqb c " " then skip fuel' (cutspace value) (cutspace prefix) else None
      | EmptyString => skip fuel' value (cutspace prefix)
      end
  | S fuel', String p prefix' =>
      match value with
      | String c value' => if Ascii.eqb c p then skip fuel' value' prefix' else None
      | EmptyString => None
      end
  end.

Definition shortMonthNames : list string :=
  ["Jan"; "Feb"; "Mar"; "Apr"; "May"; "Jun"; "Jul"; "Aug"; "Sep"; "Oct"; "Nov"; "Dec"].

(** [lookup]: the first name that starts the value, whatever the case;
    the result counts from 1. *)
Fixpoint lookup_name (names : list string) (i : Z) (value : string) : option (Z * string) :=
  match names with
  | [] => None
  | v :: names' =>
      if (String.length v <=? String.length value)%nat
         && (ToLower (take (String.length v) value) =? ToLower v)%string
      then Some (i, drop (String.length v) value)
      else lookup_name names' (i + 1) value
  end.

Definition isLeap (year : Z) : bool :=
  (year mod 4 =? 0) && (negb (year mod 100 =? 0) || (year mod 400 =? 0)).

Definition daysBefore (month : Z) : Z :=
  nth (Z.to_nat (month - 1)) [0; 31; 59; 90; 120; 151; 181; 212; 243; 273; 304; 334] 0.

Definition daysIn (month year : Z) : Z :=
  if (month =? 2) && isLeap year then 29
  else nth (Z.to_nat (month - 1)) [31; 28; 31; 30; 31; 30; 31; 31; 30; 31; 30; 31] 0.

(** The days from January 1 of year 1 to the given day; month and day
    may be out of range, as in [time.Date]. *)
Definition days_of (year month day : Z) : Z :=
  let m := month - 1 in
  let year := year + m / 12 in
  let month := m mod 12 + 1 in
  let y := year - 1 in
  365 * y + y / 4 - y / 100 + y / 400
  + daysBefore month + (if (month >? 2) && isLeap year then 1 else 0)
  + (day - 1).

(** [time.Date] in UTC, as an instant. *)
Definition Date (year month day hour min sec nsec : Z) : Time :=
  (days_of year month day * 86400 + hour * 3600 + min * 60 + sec) * 1000000000 + nsec.

(** The year, month and day of a number of days since January 1 of
    year 1. *)
Definition civil (days : Z) : Z * Z * Z :=
  let z := days + 306 in
  let era := z / 146097 in
  let doe := z - era * 146097 in
  let yoe := (doe - doe / 1460 + doe / 36524 - doe / 146096) / 365 in
  let doy := doe - (365 * yoe + yoe / 4 - yoe / 100) in
  let mp := (5 * doy + 2) / 153 in
  let d := doy - (153 * mp + 2) / 5 + 1 in
  let m := if mp <? 10 then mp + 3 else mp - 9 in
  (yoe + era * 400 + (if m <=? 2 then 1 else 0), m, d).

(** [t.AddDate] of a time in UTC. *)
Definition AddDate (t : Time) (years months days : Z) : Time :=
  let secs := t / 1000000000 in
  let '(year, month, day) := civil (secs / 86400) in
  Date (year + years) (month + months) (day + days) 0 0 (secs mod 86400)
       (t mod 1000000000).

(** What [Parse] has read so far. *)
Record fields : Type := {
  year : Z; month : Z; day : Z; hour : Z; min : Z; sec : Z; nsec : Z;
  zoneOffset : Z
}.

Definition fields0 : fields :=
  {| year := 0; month := -1; day := -1; hour := 0; min := 0; sec := 0; nsec := 0;
     zoneOffset := 0 |}.

Fixpoint count_digits (s : string) : nat :=
  match s with
  | String c s' => if is_digit c then S (count_digits s') else 0%nat
  | EmptyString => 0%nat
  end.

(** A fraction of a second after the seconds, which [Parse] accepts also
    when the layout has none: its first nine digits count. *)
Definition fraction (value : string) : Z * string :=
  match value with
  | String c rest =>
      if (Ascii.eqb c "." || Ascii.eqb c ",") && (0 <? count_digits rest)%nat then
        let n := count_digits rest in
        let used := take (Nat.min n 9) rest in
        (default 0 (decimal used 0) * 10 ^ (9 - Z.of_nat (String.length used)),
         drop n rest)
      else (0, value)
  | EmptyString => (0, value)
  end.

(** A zone offset: sign, hours and minutes. *)
Definition offset_of (sign : option ascii) (hh mm : string) : option Z :=
  '(hr, _) ← getnum hh true;
  '(mi, _) ← getnum mm true;
  if (hr >? 24) || (mi >? 60) then None
  else match sign with
       | Some "+"%char => Some ((hr * 60 + mi) * 60)
       | Some "-"%char => Some (- ((hr * 60 + mi) * 60))
       | _ => None
       end.

Definition parse_chunk (c : chunk) (value : string) (f : fields) : option (fields * string) :=
  let upd y mo d h mi s ns z :=
    {| year := y; month := mo; day := d; hour := h; min := mi; sec := s; nsec := ns;
       zoneOffset := z |} in
  match c with
  | Lit prefix => value' ← skip (S (String.length prefix)) value prefix; Some (f, value')
  | stdLongYear =>
      if (4 <=? String.length value)%nat then
        y ← decimal (take 4 value) 0;
        Some (upd y (month f) (day f) (hour f) (min f) (sec f) (nsec f) (zoneOffset f),
              drop 4 value)
      else None
  | stdZeroMonth =>
      '(m, value') ← getnum value true;
      if (m <=? 0) || (12 <? m) then None
      else Some (upd (year f) m (day f) (hour f) (min f) (sec f) (nsec f) (zoneOffset f), value')
  | stdMonth =>
      '(m, value') ← lookup_name shortMonthNames 1 value;
      Some (upd (year f) m (day f) (hour f) (min f) (sec f) (nsec f) (zoneOffset f), value')
  | stdDay | stdZeroDay =>
      '(d, value') ← getnum value (match c with stdZeroDay => true | _ => false end);
      Some (upd (year f) (month f) d (hour f) (min f) (sec f) (nsec f) (zoneOffset f), value')
  | stdHour =>
      '(h, value') ← getnum value false;
      if 24 <=? h then None
      else Some (upd (year f) (month f) (day f) h (min f) (sec f) (nsec f) (zoneOffset f), value')
  | stdZeroMinute =>
      '(mi, value') ← getnum value true;
      if 60 <=? mi then None
      else Some (upd (year f) (month f) (day f) (hour f) mi (sec f) (nsec f) (zoneOffset f), value')
  | stdZeroSecond =>
      '(s, value') ← getnum value true;
      if 60 <=? s then None
      else
        let '(ns, value'') := fraction value' in
        Some (upd (year f) (month f) (day f) (hour f) (min f) s ns (zoneOffset f), value'')
  | stdISO8601ColonTZ =>
      match value with
      | String "Z" value' => Some (f, value')
      | _ =>
          if (6 <=? String.length value)%nat
             && bool_decide (String.get 3 value = Some ":"%char) then
            z ← offset_of (String.get 0 value) (take 2 (drop 1 value)) (take 2 (drop 4 value));
            Some (upd (year f) (month f) (day f) (hour f) (min f) (sec f) (nsec f) z,
                  drop 6 value)
          else None
      end
  | stdNumTZ =>
      if (5 <=? String.length value)%nat then
        z ← offset_of (String.get 0 value) (take 2 (drop 1 value)) (take 2 (drop 3 value));
        Some (upd (year f) (month f) (day f) (hour f) (min f) (sec f) (nsec f) z,
              drop 5 value)
      else None
  end.

Fixpoint parse_chunks (cs : list chunk) (value : string) (f : fields) : option fields :=
  match cs with
  | [] => match value with EmptyString => Some f | _ => None end
  | c :: cs' => '(f', value') ← parse_chunk c value f; parse_chunks cs' value' f'
  end.

(** [time.Parse]: the text must be used up and the day must exist in its
    month; the instant is the UTC date less the zone offset. *)
Definition Parse (layout value : string) : option Time :=
  cs ← chunks layout;
  f ← parse_chunks cs value fields0;
  let month := if month f =? -1 then 1 else month f in
  let day := if day f =? -1 then 1 else day f in
  if (day <? 1) || (daysIn month (year f) <? day) then None
  else Some (Date (year f) month day (hour f) (min f) (sec f - zoneOffset f) (nsec f)).

End GoTime.

(** ** The library on the analyzer's documents: [encoding/json] *)

Module GoJSON.

Definition is_ws (c : ascii) : bool :=
  ((code c =? 32) || (code c =? 9) || (code c =? 10) || (code c =? 13))%N.

Fixpoint skip_ws (s : string) : string :=
  match s with
  | String c s' => if is_ws c then skip_ws s' else s
  | EmptyString => s
  end.

Definition hex_digit (c : ascii) : option N :=
  if is_digit c then Some (code c - 48)%N
  else if in_range 97 102 c then Some (code c - 87)%N
  else if in_range 65 70 c then Some (code c - 55)%N
  else None.

(** Four hexadecimal digits. *)
Definition hex4 (s : string) : option (N * string) :=
  match s with
  | String a (String b (String c (String d s'))) =>
      a ← hex_digit a; b ← hex_digit b; c ← hex_digit c; d ← hex_digit d;
      Some (((a * 16 + b) * 16 + c) * 16 + d, s')%N
  | _ => None
  end.

(** The UTF-8 bytes of a code point. *)
Definition utf8 (n : N) : string :=
  let byte (x : N) := String (ascii_of_N x) "" in
  (if n <? 128 then byte n
   else if n <? 2048 then byte (192 + n / 64) +:+ byte (128 + n mod 64)
   else if n <? 65536 then
     byte (224 + n / 4096) +:+ byte (128 + (n / 64) mod 64) +:+ byte (128 + n mod 64)
   else
     byte (240 + n / 262144) +:+ byte (128 + (n / 4096) mod 64)
       +:+ byte (128 + (n / 64) mod 64) +:+ byte (128 + n mod 64))%N.

(** The code point of an escape [\uXXXX] whose digits are read, with a
    low surrogate after a high one; a lone surrogate is U+FFFD. *)
Definition code_point (n : N) (rest : string) : N * string :=
  (if (55296 <=? n) && (n <? 56320) then
     match rest with
     | String "\" (String "u" rest') =>
         match hex4 rest' with
         | Some (lo, rest'') =>
             if (56320 <=? lo) && (lo <? 57344)
             then (65536 + (n - 55296) * 1024 + (lo - 56320), rest'')
             else (65533, rest)
         | None => (65533, rest)
         end
     | _ => (65533, rest)
     end
   else if (56320 <=? n) && (n <? 57344) then (65533, rest)
   else (n, rest))%N.

(** The characters of a string literal after its opening quote, up to
    the closing one. *)
Fixpoint chars (fuel : nat) (s : string) (acc : string) : option (string * string) :=
  match fuel with
  | O => None
  | S fuel' =>
      match s with
      | EmptyString => None
      | String c s' =>
          if Ascii.eqb c dquote then Some (acc, s')
          else if Ascii.eqb c "\" then
            match s' with
            | String e s'' =>
                let plain (x : N) := chars fuel' s'' (acc +:+ String (ascii_of_N x) "") in
                if Ascii.eqb e dquote then plain 34%N
                else if Ascii.eqb e "\" then plain 92%N
                else if Ascii.eqb e "/" then plain 47%N
                else if Ascii.eqb e "b" then plain 8%N
                else if Ascii.eqb e "f" then plain 12%N
                else if Ascii.eqb e "n" then plain 10%N
                else if Ascii.eqb e "r" then plain 13%N
                else if Ascii.eqb e "t" then plain 9%N
                else if Ascii.eqb e "u" then
                  '(n, rest) ← hex4 s'';
                  let '(cp, rest') := code_point n rest in
                  chars fuel' rest' (acc +:+ utf8 cp)
                else None
            | EmptyString => None
            end
          else if (code c <? 32)%N then None
          else chars fuel' s' (acc +:+ String c "")
      end
  end.

Fixpoint span_digits (s : string) : string * string :=
  match s with
  | String c s' =>
      if is_digit c then let '(d, r) := span_digits s' in (String c d, r) else ("", s)
  | EmptyString => ("", s)
  end.

(** A number: its text and the rest. *)
Definition number (s : string) : option (string * string) :=
  let '(sign, s1) := match s with String "-" r => ("-", r) | _ => ("", s) end in
  let '(int, s2) := span_digits s1 in
  if (int =? "")%string
     || ((1 <? String.length int)%nat && HasPrefix int "0") then None
  else
    '(frac, s3) ← match s2 with
                  | String "." r =>
                      let '(d, r') := span_digits r in
                      if (d =? "")%string then None else Some ("." +:+ d, r')
                  | _ => Some ("", s2)
                  end;
    '(exp, s4) ← match s3 with
                 | String e r =>
                     if Ascii.eqb e "e" || Ascii.eqb e "E" then
                       let '(sg, r1) :=
                         match r with
                         | String "+" r1 => ("+", r1)
                         | String "-" r1 => ("-", r1)
                         | _ => ("", r)
                         end in
                       let '(d, r2) := span_digits r1 in
                       if (d =? "")%string then None
                       else Some (String e "" +:+ sg +:+ d, r2)
                     else Some ("", s3)
                 | EmptyString => Some ("", s3)
                 end;
    Some (sign +:+ int +:+ frac +:+ exp, s4).

(** A value, the elements of an array after its bracket and the members
    of an object after its brace. *)
Fixpoint value (fuel : nat) (s : string) : option (JSON * string) :=
  match fuel with
  | O => None
  | S fuel' =>
      let s := skip_ws s in
      match s with
      | String "{" r =>
          match skip_ws r with
          | String "}" r' => Some (JObject [], r')
          | _ => '(ms, r') ← members fuel' r []; Some (JObject ms, r')
          end
      | String "[" r =>
          match skip_ws r with
          | String "]" r' => Some (JArray [], r')
          | _ => '(vs, r') ← elements fuel' r []; Some (JArray vs, r')
          end
      | String c r =>
          if Ascii.eqb c dquote then
            '(str, r') ← chars (S (String.length r)) r ""; Some (JString str, r')
          else if HasPrefix s "true" then Some (JBool true, drop 4 s)
          else if HasPrefix s "false" then Some (JBool false, drop 5 s)
          else if HasPrefix s "null" then Some (JNull, drop 4 s)
          else '(n, r') ← number s; Some (JNumber n, r')
      | EmptyString => None
      end
  end
with elements (fuel : nat) (s : string) (acc : list JSON) : option (list JSON * string) :=
  match fuel with
  | O => None
  | S fuel' =>
      '(v, r) ← value fuel' s;
      match skip_ws r with
      | String "," r' => elements fuel' r' (acc ++ [v])%list
      | String "]" r' => Some ((acc ++ [v])%list, r')
      | _ => None
      end
  end
with members (fuel : nat) (s : string) (acc : list (string * JSON))
    : option (list (string * JSON) * string) :=
  match fuel with
  | O => None
  | S fuel' =>
      match skip_ws s with
      | String q r =>
          if Ascii.eqb q dquote then
            '(key, r1) ← chars (S (String.length r)) r "";
            match skip_ws r1 with
            | String ":" r2 =>
                '(v, r3) ← value fuel' r2;
                match skip_ws r3 with
                | String "," r4 => members fuel' r4 (acc ++ [(key, v)])%list
                | String "}" r4 => Some ((acc ++ [(key, v)])%list, r4)
                | _ => None
                end
            | _ => None
            end
          else None
      | EmptyString => None
      end
  end.

(** [json.Unmarshal] into a [map[string]interface{}]: the document must
    be one value, an object or [null] (which leaves the map [nil]); of
    two members with one key the later stays.  The document is taken to
    be valid UTF-8. *)
Definition Unmarshal (data : string) : option (gmap string JSON) :=
  '(v, rest) ← value (S (String.length data)) data;
  match skip_ws rest, v with
  | EmptyString, JObject ms => Some (foldl (fun m '(k, x) => <[k := x]> m) ∅ ms)
  | EmptyString, JNull => Some ∅
  | _, _ => None
  end.

End GoJSON.

(** The library as the examples use it; the year is the one of the
    sample lines of the repository. *)
Definition goPlatform : Platform :=
  {| time_Parse := GoTime.Parse;
     AddDate := GoTime.AddDate;
     time_Now_Year := 2024;
     json_Unmarshal := GoJSON.Unmarshal |}.

(** A document with the double quotes written as single ones. *)
Definition quoted (s : string) : string :=
  smap (fun c => if Ascii.eqb c "'" then dquote else c) s.


(** ** Output *)

(** The library operations of the output: [t.Format(layout)], and the
    text that the encoder of [outputJSON] writes for the entries. *)
Class Printer : Type := {
  time_Format : Time -> string -> string;
  json_Encode : list LogEntry -> string
}.

(** The line feed. *)
Definition newline : string := String "010"%char "".

(** [strings.ReplaceAll(s, old, new)] for an [old] of one byte, as
    [outputCSV] calls it. *)
Fixpoint ReplaceAll (s : string) (old : ascii) (new : string) : string :=
  match s with
  | EmptyString => EmptyString
  | String c s' =>
      if Ascii.eqb c old then new +:+ ReplaceAll s' old new
      else String c (ReplaceAll s' old new)
  end.

Section Output.
Context {Pr : Printer}.




(** What the body of the loop of [outputCSV] prints for one entry. *)
Definition outputCSV_entry (entry : LogEntry) : string :=
  let timestamp :=
    if negb (IsZero (Timestamp entry))
    then time_Format (Timestamp entry) "2006-01-02 15:04:05" else "" in
  timestamp +:+ "," +:+ Level entry +:+ "," +:+ Source entry +:+ "," +:+ DQ
    +:+ ReplaceAll (Message entry) dquote (DQ +:+ DQ) +:+ DQ +:+ newline.

Definition outputCSV (la : LogAnalyzer) (entries : list LogEntry) : string :=
  foldl (fun out entry => out +:+ outputCSV_entry entry)
        ("Timestamp,Level,Source,Message" +:+ newline) entries.



End Output.


(** * The vocabulary of the properties *)

(** [sub] occurs in [s]: some text, then [sub], then some text. *)
Definition occurs (sub s : string) : Prop :=
  exists pre post, s = pre +:+ sub +:+ post.


(** The conditions (a), (b) and (c) of the filter: level, source and
    keyword. *)
Definition level_ok (f : Filters) (entry : LogEntry) : bool :=
  (FLevel f =? "")%string || (Level entry =? FLevel f)%string.
Definition source_ok (f : Filters) (entry : LogEntry) : bool :=
  (FSource f =? "")%string || Contains (ToLower (Source entry)) (ToLower (FSource f)).
Definition keyword_ok (f : Filters) (entry : LogEntry) : bool :=
  (Keyword f =? "")%string || Contains (ToLower (Message entry)) (ToLower (Keyword f)).

Definition known_level (entry : LogEntry) : bool :=
  (Level entry =? "ERROR")%string || (Level entry =? "WARN")%string
  || (Level entry =? "INFO")%string || (Level entry =? "DEBUG")%string.

(** The number of entries at a level. *)
Definition at_level (l : string) (es : list LogEntry) : Z :=
  slen (List.filter (fun e => (Level e =? l)%string) es).

(** The line goes to the JSON extractor. *)
Definition takes_json (line format : string) : bool :=
  (format =? "json")%string || ((format =? "auto")%string && HasPrefix (TrimSpace line) "{").

(** The pattern names [parseLine] tries, in order. *)
Definition names_for (format : string) : list string :=
  if (format =? "auto")%string then ["generic"; "syslog"; "apache"; "nginx"] else [format].

(** The line has the shape of the named pattern of the analyzer. *)
Definition shape_matches (la : LogAnalyzer) (line name : string) : bool :=
  match patterns la !! name with
  | Some regex =>
      match FindStringSubmatch regex line with
      | Some _ => true
      | None => false
      end
  | None => false
  end.

(** One attempt of [parseGeneric]: the layout against the prefix of its
    length, when the line is that long. *)
Definition attempt {P : Platform} (line pattern : string) : option Time :=
  if (len line >=? len pattern)%Z
  then time_Parse pattern (take (String.length pattern) line)
  else None.

(** A pair comes before another when its count is not smaller. *)
Definition by_count : relation kv := fun a b => (b.2 <= a.2)%Z.

(** The lines of a top table of [limit] lines of the map [m]. *)
Definition is_top (limit : nat) (m : gmap string Z) (out : list kv) : Prop :=
  (length out <= limit)%nat
  /\ StronglySorted by_count out
  /\ (forall k v, (k, v) ∈ out -> m !! k = Some v)
  /\ (exists rest, (out ++ rest)%list ≡ₚ map_to_list m
                   /\ forall a b, a ∈ out -> b ∈ rest -> by_count a b)
  /\ (exists ss, ss ≡ₚ map_to_list m /\ out = firstn limit (stable_sort ss)).

(** The two tables [showStats] prints when the maps are not empty. *)
Definition top_tables (la : LogAnalyzer) (sources errors : list kv) : Prop :=
  (if bool_decide (0 < size (TopSources (showStats la)))%nat
   then printTopMap la (TopSources (showStats la)) 5 sources
   else sources = [])
  /\ (if bool_decide (0 < size (TopErrors (showStats la)))%nat
      then printTopMap la (TopErrors (showStats la)) 5 errors
      else errors = []).

(** The sample lines of the repository's Makefile, and lines of other
    shapes. *)
Definition sample_log : list string :=
  ["2024-01-01 10:00:00 [INFO] Application started";
   "2024-01-01 10:01:00 [ERROR] Database connection failed";
   "2024-01-01 10:02:00 [WARN] High memory usage"].


Definition hosts_log : list string :=
  ["Jan  2 15:04:05 alpha sshd[42]: session opened";
   "Jan  2 15:04:06 beta sshd[42]: fatal: no route";
   "Jan  2 15:04:07 gamma cron[7]: job started";
   "Jan  2 15:04:08 beta sshd[42]: error: timeout";
   "Jan  2 15:04:09 delta cron[7]: job done";
   "Jan  2 15:04:10 epsilon app[1]: trace on";
   "Jan  2 15:04:11 zeta app[1]: warning: disk";
   "Jan  2 15:04:12 beta sshd[42]: error: timeout";
   "Jan  2 15:04:13 zeta app[1]: critical: disk";
   "no time at all"].

Definition hosts_analyzer : LogAnalyzer :=
  parseFile (P := goPlatform) NewLogAnalyzer hosts_log "auto".

Definition stats_flags : Flags :=
  {| filename := "/logs/test.log"; format := "auto"; level := "error"; source := "";
     keyword := ""; startTime := ""; endTime := ""; flag_stats := true; tail := 0;
     head := 0; follow := false; output := ""; verbose := false |}.

(** An analyzer with both time bounds set, and an entry without
    timestamp. *)
Definition bounded_analyzer : LogAnalyzer :=
  set_filters
    {| FLevel := ""; StartTime := GoTime.Parse "2006-01-02 15:04:05" "2024-01-01 00:00:00";
       EndTime := GoTime.Parse "2006-01-02 15:04:05" "2024-01-02 00:00:00";
       FSource := ""; Keyword := "time" |}
    hosts_analyzer.

Definition untimed_entry : LogEntry :=
  {| Timestamp := 0; Level := "INFO"; Message := "no time at all"; Source := "";
     Raw := "no time at all" |}.


(** The texts of the entries, one after the other. *)
Definition texts (f : LogEntry -> string) (es : list LogEntry) : string :=
  foldr (fun e out => f e +:+ out) "" es.

(** The bounds (d) and (e) of the filter on a set timestamp. *)
Definition within_bounds (f : Filters) (t : Time) : bool :=
  match StartTime f with Some a => (a <=? t)%Z | None => true end
  && match EndTime f with Some b => (t <=? b)%Z | None => true end.


(** The analyzer of [main] when the file is read: the filters of the
    command line and one entry per line. *)
Definition main_analyzer {P : Platform} (fl : Flags) (start end_ : option Time)
    (lines : list string) : LogAnalyzer :=
  parseFile
    (set_filters {| FLevel := ToUpper (level fl); FSource := source fl;
                    Keyword := keyword fl; StartTime := start; EndTime := end_ |}
       NewLogAnalyzer)
    lines (format fl).

(** The entries [es] are a listing of the lines under the flags: they
    pass the filters, come from the lines in their order, and are cut by
    [head], else by [tail]. *)
Definition listing_of {P : Platform} (fl : Flags) (lines : list string)
    (es : list LogEntry) : Prop :=
  exists start end_,
    time_flag (startTime fl) = inr start
    /\ time_flag (endTime fl) = inr end_
    /\ es `sublist_of` filterEntries (main_analyzer fl start end_ lines)
    /\ Forall (fun e => matchesFilters (main_analyzer fl start end_ lines) e = true) es
    /\ (Raw <$> es) `sublist_of` lines
    /\ ((0 < head fl)%Z ->
        es `prefix_of` filterEntries (main_analyzer fl start end_ lines)
        /\ slen es = Z.min (head fl) (slen (filterEntries (main_analyzer fl start end_ lines))))
    /\ ((head fl <= 0)%Z -> (0 < tail fl)%Z ->
        es `suffix_of` filterEntries (main_analyzer fl start end_ lines)
        /\ slen es = Z.min (tail fl) (slen (filterEntries (main_analyzer fl start end_ lines))))
    /\ ((head fl <= 0)%Z -> (tail fl <= 0)%Z ->
        es = filterEntries (main_analyzer fl start end_ lines)).

(** Flags of a listing with both [head] and [tail]. *)
Definition listing_flags : Flags :=
  {| filename := "/logs/test.log"; format := "auto"; level := ""; source := "";
     keyword := "a"; startTime := ""; endTime := ""; flag_stats := false; tail := 2;
     head := 1; follow := false; output := "csv"; verbose := false |}.


(** The number of entries of a source, and of entries at the level ERROR
    with a message. *)
Definition from_source (k : string) (es : list LogEntry) : Z :=
  slen (List.filter (fun e => (Source e =? k)%string) es).
Definition errors_saying (m : string) (es : list LogEntry) : Z :=
  slen (List.filter (fun e => (Level e =? "ERROR")%string && (Message e =? m)%string) es).

(** The entry of a frequency table for a count: none for zero. *)
Definition frequency (n : Z) : option Z := if (n =? 0)%Z then None else Some n.

(** An entry of a frequency table after [n] more occurrences. *)
Definition tally (o : option Z) (n : Z) : option Z :=
  if (n =? 0)%Z then o else Some (default 0 o + n)%Z.

(** The timestamps that are set, in the order of the entries. *)
Definition stamps (es : list LogEntry) : list Time :=
  List.filter (fun t => negb (IsZero t)) (Timestamp <$> es).

(** The state of the time range in the loop of [showStats], after the
    set timestamps [seen]. *)
Definition range_of (seen : list Time) (lo hi : Time) : Prop :=
  (lo = 0 /\ hi = 0 /\ seen = [])
  \/ (lo <> 0 /\ hi <> 0 /\ lo ∈ seen /\ hi ∈ seen
      /\ Forall (fun t => (lo <= t <= hi)%Z) seen).


(** Reading a quoted field of a CSV row after its opening quote: a
    doubled quote stands for one quote and a single quote ends the
    field.  The result is the field and the rest of the row. *)
Fixpoint read_quoted (s : string) : option (string * string) :=
  match s with
  | EmptyString => None
  | String c s' =>
      if Ascii.eqb c dquote then
        match s' with
        | String c' s'' =>
            if Ascii.eqb c' dquote
            then (fun '(field, rest) => (String dquote field, rest)) <$> read_quoted s''
            else Some ("", s')
        | EmptyString => Some ("", "")
        end
      else (fun '(field, rest) => (String c field, rest)) <$> read_quoted s'
  end.


(** Every character of [s] is in the class [p]. *)
Fixpoint all_of (p : ascii -> bool) (s : string) : bool :=
  match s with
  | EmptyString => true
  | String c s' => p c && all_of p s'
  end.

(** [run input r w rest caps caps']: the expression [r] matches the text
    [w] that stands before the rest [rest] of [input], and takes the
    submatches from [caps] to [caps']. *)
Inductive run (input : string)
    : regex -> string -> string -> list string -> list string -> Prop :=
| run_Empty rest caps : run input Empty "" rest caps caps
| run_Chr c rest caps : run input (Chr c) (String c "") rest caps caps
| run_Class p c rest caps :
    p c = true -> run input (Class p) (String c "") rest caps caps
| run_Repeat p lo hi w rest caps :
    all_of p w = true ->
    (lo <= String.length w)%nat ->
    (forall h, hi = Some h -> (String.length w <= h)%nat) ->
    run input (Repeat p lo hi) w rest caps caps
| run_Seq r1 r2 w1 w2 rest caps caps1 caps2 :
    run input r1 w1 (w2 +:+ rest) caps caps1 ->
    run input r2 w2 rest caps1 caps2 ->
    run input (Seq r1 r2) (w1 +:+ w2) rest caps caps2
| run_Group i r w rest caps caps' :
    run input r w rest caps caps' ->
    run input (Group i r) w rest caps (<[i := w]> caps')
| run_BeginText rest caps :
    String.length rest = String.length input ->
    run input BeginText "" rest caps caps
| run_EndText caps : run input EndText "" "" caps caps.

(** The value of a run of decimal digits. *)
Definition number (digits : string) : Z := default 0 (decimal digits 0).


(** The record of an access-log line: the line is the client, two more
    fields, the bracketed timestamp, the quoted request, the status and
    the size, and the record is read off these parts. *)
Definition access_record {P : Platform} (la : LogAnalyzer) (line : string)
    (matches : list string) : Prop :=
  exists source ident user timestamp request status size rest,
    line = source +:+ " " +:+ ident +:+ " " +:+ user +:+ " [" +:+ timestamp +:+ "] "
           +:+ DQ +:+ request +:+ DQ +:+ " " +:+ status +:+ " " +:+ size +:+ rest
    /\ (all_of cls_S source = true /\ source <> "")
    /\ all_of (cls_set true [dquote]) request = true
    /\ (all_of cls_d status = true /\ status <> "")
    /\ parseWithPattern la line "apache" matches
       = Some {| Timestamp := default 0 (time_Parse "02/Jan/2006:15:04:05 -0700" timestamp);
                 Level := if (number status >=? 2 ^ 63)%Z then ""
                          else if (number status >=? 500)%Z then "ERROR"
                          else if (number status >=? 400)%Z then "WARN"
                          else "INFO";
                 Message := request; Source := source; Raw := line |}.

(** The record of a line of the generic shape: the line is the date and
    time, white space, the level between brackets, white space and the
    message, and the record is read off these parts. *)
Definition generic_record {P : Platform} (la : LogAnalyzer) (line : string)
    (matches : list string) : Prop :=
  exists stamp gap level gap' message rest,
    line = stamp +:+ gap +:+ "[" +:+ level +:+ "]" +:+ gap' +:+ message +:+ rest
    /\ (19 <= String.length stamp)%nat
    /\ (all_of cls_s gap = true /\ gap <> "")
    /\ (all_of cls_w level = true /\ level <> "")
    /\ (all_of cls_s gap' = true /\ gap' <> "")
    /\ all_of cls_dot message = true
    /\ parseWithPattern la line "generic" matches
       = Some {| Timestamp := default 0 (time_Parse "2006-01-02 15:04:05" stamp);
                 Level := ToUpper level; Message := message; Source := "";
                 Raw := line |}.

(** The access-log line of the examples, and a line of the generic
    shape with a level of its own. *)
Definition access_line : string :=
  quoted "127.0.0.1 - - [10/Oct/2023:13:55:36 -0700] 'GET /index.html' 503 2326".
Definition notice_line : string := "2024-01-01 10:00:00  [notice] disk at 91%".




(** The flags with another level. *)
Definition with_level (l : string) (fl : Flags) : Flags :=
  {| filename := filename fl; format := format fl; level := l; source := source fl;
     keyword := keyword fl; startTime := startTime fl; endTime := endTime fl;
     flag_stats := flag_stats fl; tail := tail fl; head := head fl; follow := follow fl;
     output := output fl; verbose := verbose fl |}.


(** * Properties *)

(** ** Runs of the library *)

Example ToUpper_ex : ToUpper "Disk warning: 7%" = "DISK WARNING: 7%".
Proof. reflexivity. Qed.
Example TrimSpace_ex : TrimSpace "  a b  " = "a b".
Proof. reflexivity. Qed.
Example Contains_ex : Contains "abcde" "cd" = true /\ Contains "abcde" "ce" = false /\ Contains "" "" = true.
Proof. repeat split; reflexivity. Qed.

Example Compile_logPatterns :
  (fun '(name, pattern) => (name, Compile pattern)) <$> logPatterns
  = [("apache", Some pattern_apache); ("nginx", Some pattern_nginx);
     ("syslog", Some pattern_syslog); ("generic", Some pattern_generic);
     ("json", Some pattern_json)].
Proof. reflexivity. Qed.

Example generic_ex :
  FindStringSubmatch pattern_generic "2024-01-01 10:00:00 [INFO] Application started"
  = Some ["2024-01-01 10:00:00 [INFO] Application started";
          "2024-01-01 10:00:00"; "INFO"; "Application started"].
Proof. reflexivity. Qed.

Example syslog_ex :
  FindStringSubmatch pattern_syslog "Jan  2 15:04:05 host sshd[42]: session: opened"
  = Some ["Jan  2 15:04:05 host sshd[42]: session: opened";
          "Jan  2 15:04:05"; "host"; "sshd[42]"; "session: opened"].
Proof. reflexivity. Qed.

(** ** Strings *)

Lemma HasPrefix_true (s p : string) :
  HasPrefix s p = true <-> exists t, s = p +:+ t.
Proof.
  revert s. induction p as [|c p IH]; intros s.
  - split; [intros _; by exists s | by destruct s].
  - destruct s as [|c' s]; simpl.
    + split; [done | by intros [t Ht]].
    + destruct (Ascii.eqb_spec c' c) as [->|Hne].
      * rewrite IH. split; intros [t Ht]; exists t; [by rewrite Ht | by injection Ht].
      * split; [done | intros [t Ht]; injection Ht; congruence].
Qed.

Lemma Contains_unfold (s sub : string) :
  Contains s sub =
  if HasPrefix s sub then true
  else match s with
       | EmptyString => false
       | String _ s' => Contains s' sub
       end.
Proof. by destruct s. Qed.

Lemma Contains_true (s sub : string) :
  Contains s sub = true <-> occurs sub s.
Proof.
  induction s as [|c s IH]; rewrite Contains_unfold.
  - destruct (HasPrefix "" sub) eqn:Hp.
    + apply HasPrefix_true in Hp as [t Ht]. split; [intros _; by exists "", t | done].
    + split; [done |]. intros ([|? pre] & post & Hs); [| done].
      assert (HasPrefix "" sub = true) by (apply HasPrefix_true; by exists post).
      congruence.
  - destruct (HasPrefix (String c s) sub) eqn:Hp.
    + apply HasPrefix_true in Hp as [t Ht]. split; [intros _; by exists "", t | done].
    + rewrite IH. split.
      * intros (pre & post & ->). by exists (String c pre), post.
      * intros ([|c' pre] & post & Hs).
        -- assert (HasPrefix (String c s) sub = true)
             by (apply HasPrefix_true; by exists post).
           congruence.
        -- injection Hs as -> ->. by exists pre, post.
Qed.

Lemma Contains_false (s sub : string) :
  Contains s sub = false <-> ~ occurs sub s.
Proof. rewrite <- Contains_true. by destruct (Contains s sub). Qed.

Lemma smap_app (f : ascii -> ascii) (a b : string) :
  smap f (a +:+ b) = smap f a +:+ smap f b.
Proof. induction a as [|c a IH]; simpl; [done | by rewrite IH]. Qed.

Lemma smap_ext (f g : ascii -> ascii) (s : string) :
  (forall c, f c = g c) -> smap f s = smap g s.
Proof. intros Hfg. induction s as [|c s IH]; simpl; [done | by rewrite Hfg, IH]. Qed.

Lemma smap_smap (f g : ascii -> ascii) (s : string) :
  smap f (smap g s) = smap (fun c => f (g c)) s.
Proof. induction s as [|c s IH]; simpl; [done | by rewrite IH]. Qed.

Lemma upper_upper (c : ascii) : upper (upper c) = upper c.
Proof. destruct c as [[] [] [] [] [] [] [] []]; reflexivity. Qed.


Lemma ToUpper_ToUpper (s : string) : ToUpper (ToUpper s) = ToUpper s.
Proof. unfold ToUpper. rewrite smap_smap. apply smap_ext, upper_upper. Qed.


(** ** Level inference *)

Section LevelInference.
Variable la : LogAnalyzer.





End LevelInference.

(** ** The filter *)

Lemma foldl_pointwise {A B : Type} (f g : A -> B -> A) (a : A) (l : list B) :
  (forall a b, f a b = g a b) -> foldl f a l = foldl g a l.
Proof.
  intros Hfg. revert a. induction l as [|b l IH]; intros a; simpl; [done |].
  by rewrite Hfg, IH.
Qed.

Section Filter.
Variable la : LogAnalyzer.

(** The body of the loop of [filterEntries] keeps an entry exactly when
    [matchesFilters] accepts it. *)
Lemma filterEntries_step (filtered : list LogEntry) (entry : LogEntry) :
  (if negb (FLevel (filters la) =? "")%string
      && negb (Level entry =? FLevel (filters la))%string
   then filtered
   else if negb (FSource (filters la) =? "")%string
           && negb (Contains (ToLower (Source entry)) (ToLower (FSource (filters la))))
   then filtered
   else if negb (Keyword (filters la) =? "")%string
           && negb (Contains (ToLower (Message entry)) (ToLower (Keyword (filters la))))
   then filtered
   else if before_start (filters la) entry then filtered
   else if after_end (filters la) entry then filtered
   else (filtered ++ [entry])%list)
  = (filtered ++ if matchesFilters la entry then [entry] else [])%list.
Proof.
  unfold matchesFilters.
  repeat match goal with
         | |- context [if ?b then _ else _] => destruct b; simpl
         end; by rewrite ?app_nil_r.
Qed.

Lemma filterEntries_loop (es filtered : list LogEntry) :
  foldl (fun filtered entry =>
           (filtered ++ if matchesFilters la entry then [entry] else [])%list)
        filtered es
  = (filtered ++ List.filter (matchesFilters la) es)%list.
Proof.
  revert filtered. induction es as [|e es IH]; intros filtered; simpl.
  - by rewrite app_nil_r.
  - rewrite IH. destruct (matchesFilters la e); simpl.
    + by rewrite <- app_assoc.
    + by rewrite app_nil_r.
Qed.

Lemma filterEntries_filter :
  filterEntries la = List.filter (matchesFilters la) (entries la).
Proof.
  unfold filterEntries.
  rewrite (foldl_pointwise _
             (fun filtered entry =>
                (filtered ++ if matchesFilters la entry then [entry] else [])%list))
    by (intros; apply filterEntries_step).
  apply filterEntries_loop.
Qed.

(** C10: the one-shot filter returns exactly the entries that the
    live-follow filter accepts, in their original order. *)
Theorem filterEntries_matchesFilters :
  filterEntries la = List.filter (matchesFilters la) (entries la)
  /\ (forall entry, entry ∈ filterEntries la <->
                    entry ∈ entries la /\ matchesFilters la entry = true)
  /\ filterEntries la `sublist_of` entries la.
Proof.
  rewrite filterEntries_filter. split; [done | split].
  - intros entry. rewrite !list_elem_of_In, filter_In. done.
  - induction (entries la) as [|e es IH]; simpl; [done |].
    destruct (matchesFilters la e); by constructor.
Qed.

End Filter.

Lemma matchesFilters_conditions (la : LogAnalyzer) (entry : LogEntry) :
  matchesFilters la entry
  = level_ok (filters la) entry && source_ok (filters la) entry
    && keyword_ok (filters la) entry
    && negb (before_start (filters la) entry) && negb (after_end (filters la) entry).
Proof.
  unfold matchesFilters, level_ok, source_ok, keyword_ok.
  repeat match goal with
         | |- context [if ?b then _ else _] => destruct b eqn:?; simpl in *
         end;
    repeat match goal with
           | H : _ && _ = _ |- _ => revert H
           end;
    repeat match goal with
           | |- context [(?a =? ?b)%string] => destruct (a =? b)%string; simpl
           | |- context [Contains ?a ?b] => destruct (Contains a b); simpl
           end; done.
Qed.

(** C6: an entry whose timestamp is unset passes every combination of
    start and end bounds: neither time test excludes it, so the filter
    accepts it exactly when its level, source and keyword conditions
    hold, both in the live-follow filter and in the one-shot filter. *)
Theorem unset_timestamp_passes_time_range (la : LogAnalyzer) (entry : LogEntry) :
  IsZero (Timestamp entry) = true ->
  before_start (filters la) entry = false
  /\ after_end (filters la) entry = false
  /\ matchesFilters la entry
     = level_ok (filters la) entry && source_ok (filters la) entry
       && keyword_ok (filters la) entry
  /\ (entry ∈ entries la ->
      (entry ∈ filterEntries la <->
       level_ok (filters la) entry && source_ok (filters la) entry
       && keyword_ok (filters la) entry = true)).
Proof.
  intros Hzero.
  assert (before_start (filters la) entry = false) as Hs
    by (unfold before_start; destruct (StartTime _); [by rewrite Hzero | done]).
  assert (after_end (filters la) entry = false) as He
    by (unfold after_end; destruct (EndTime _); [by rewrite Hzero | done]).
  assert (matchesFilters la entry
          = level_ok (filters la) entry && source_ok (filters la) entry
            && keyword_ok (filters la) entry) as Hm
    by (rewrite matchesFilters_conditions, Hs, He; simpl; by rewrite !andb_true_r).
  repeat split; try done.
  - rewrite filterEntries_filter, list_elem_of_In, filter_In, Hm. tauto.
  - rewrite filterEntries_filter, list_elem_of_In, filter_In, Hm, <- list_elem_of_In.
    tauto.
Qed.

(** ** Statistics *)

Lemma at_level_cons (l : string) (e : LogEntry) (es : list LogEntry) :
  at_level l (e :: es) = ((if (Level e =? l)%string then 1 else 0) + at_level l es)%Z.
Proof.
  unfold at_level, slen. simpl. destruct (Level e =? l)%string; simpl; lia.
Qed.

Lemma showStats_step_counts (st : stats_loop) (e : LogEntry) :
  let s := stats st in
  let s' := stats (showStats_step st e) in
  TotalLines s' = TotalLines s
  /\ ErrorCount s' = (ErrorCount s + if (Level e =? "ERROR")%string then 1 else 0)%Z
  /\ WarnCount s' = (WarnCount s + if (Level e =? "WARN")%string then 1 else 0)%Z
  /\ InfoCount s' = (InfoCount s + if (Level e =? "INFO")%string then 1 else 0)%Z
  /\ DebugCount s' = (DebugCount s + if (Level e =? "DEBUG")%string then 1 else 0)%Z.
Proof.
  unfold showStats_step, count_source, count_level.
  destruct (negb (IsZero _)), (negb (Source e =? "")%string); simpl.
  all: destruct (String.eqb_spec (Level e) "ERROR") as [Heq|?];
    [rewrite ?Heq; simpl; repeat split; lia |].
  all: destruct (String.eqb_spec (Level e) "WARN") as [Heq|?];
    [rewrite ?Heq; simpl; repeat split; lia |].
  all: destruct (String.eqb_spec (Level e) "INFO") as [Heq|?];
    [rewrite ?Heq; simpl; repeat split; lia |].
  all: destruct (String.eqb_spec (Level e) "DEBUG") as [Heq|?];
    [rewrite ?Heq; simpl; repeat split; lia |].
  all: simpl; repeat split; lia.
Qed.

Lemma showStats_loop_counts (es : list LogEntry) (st : stats_loop) :
  let s := stats st in
  let s' := stats (foldl showStats_step st es) in
  TotalLines s' = TotalLines s
  /\ ErrorCount s' = (ErrorCount s + at_level "ERROR" es)%Z
  /\ WarnCount s' = (WarnCount s + at_level "WARN" es)%Z
  /\ InfoCount s' = (InfoCount s + at_level "INFO" es)%Z
  /\ DebugCount s' = (DebugCount s + at_level "DEBUG" es)%Z.
Proof.
  revert st. induction es as [|e es IH]; intros st; simpl.
  - unfold at_level, slen. simpl. repeat split; lia.
  - destruct (IH (showStats_step st e)) as (Ht & He & Hw & Hi & Hd).
    destruct (showStats_step_counts st e) as (Ht' & He' & Hw' & Hi' & Hd').
    simpl in *. rewrite !at_level_cons. repeat split; lia.
Qed.

Lemma at_level_sum (es : list LogEntry) :
  (at_level "ERROR" es + at_level "WARN" es + at_level "INFO" es + at_level "DEBUG" es
   = slen (List.filter known_level es))%Z.
Proof.
  induction es as [|e es IH]; [done |].
  rewrite !at_level_cons. unfold slen in *. simpl. unfold known_level at 1.
  destruct (String.eqb_spec (Level e) "ERROR") as [Heq|?];
    [rewrite ?Heq; simpl; lia |].
  destruct (String.eqb_spec (Level e) "WARN") as [Heq|?];
    [rewrite ?Heq; simpl; lia |].
  destruct (String.eqb_spec (Level e) "INFO") as [Heq|?];
    [rewrite ?Heq; simpl; lia |].
  destruct (String.eqb_spec (Level e) "DEBUG") as [Heq|?]; simpl; lia.
Qed.

Lemma filter_all_length {A : Type} (f : A -> bool) (l : list A) :
  length (List.filter f l) = length l <-> Forall (fun x => f x = true) l.
Proof.
  induction l as [|x l IH]; simpl; [by split |].
  pose proof (List.filter_length_le f l) as Hle.
  destruct (f x) eqn:Hx; simpl.
  - rewrite Forall_cons. split.
    + intros Hl. split; [done |]. apply IH. lia.
    + intros [_ Hl]. f_equal. by apply IH.
  - split; [lia |]. intros Hl. apply Forall_cons in Hl as [? _]. congruence.
Qed.

Lemma known_level_iff (e : LogEntry) :
  known_level e = true <-> Level e ∈ ["ERROR"; "WARN"; "INFO"; "DEBUG"].
Proof.
  unfold known_level.
  rewrite !orb_true_iff, !String.eqb_eq, !elem_of_cons, elem_of_nil. tauto.
Qed.

(** C7: the four level counts add up to at most the total; each counts
    the entries at its level and the total counts all entries, so the sum
    equals the total exactly when every entry has one of the four known
    levels. *)
Theorem level_counts_le_total (la : LogAnalyzer) :
  let s := showStats la in
  TotalLines s = slen (entries la)
  /\ ErrorCount s = at_level "ERROR" (entries la)
  /\ WarnCount s = at_level "WARN" (entries la)
  /\ InfoCount s = at_level "INFO" (entries la)
  /\ DebugCount s = at_level "DEBUG" (entries la)
  /\ (ErrorCount s + WarnCount s + InfoCount s + DebugCount s <= TotalLines s)%Z
  /\ ((ErrorCount s + WarnCount s + InfoCount s + DebugCount s = TotalLines s)%Z
      <-> Forall (fun e => Level e ∈ ["ERROR"; "WARN"; "INFO"; "DEBUG"]) (entries la)).
Proof.
  simpl.
  destruct (showStats_loop_counts (entries la)
              {| stats := stats_zero (slen (entries la)); earliest := 0; latest := 0 |})
    as (Ht & He & Hw & Hi & Hd).
  simpl in *. rewrite Ht, He, Hw, Hi, Hd. rewrite !Z.add_0_l.
  repeat (split; [done |]).
  rewrite at_level_sum. unfold slen.
  pose proof (List.filter_length_le known_level (entries la)) as Hle.
  split; [lia |].
  rewrite Nat2Z.inj_iff, filter_all_length.
  apply Forall_iff. intros e. apply known_level_iff.
Qed.

(** ** Submatches *)




(** ** The line parser *)

Section Parser.
Context {P : Platform}.
Variable la : LogAnalyzer.

Lemma parseLine_unfold (line format : string) :
  parseLine la line format
  = if takes_json line format then parseJSON la line
    else parseLine_loop la line (names_for format).
Proof. done. Qed.

Lemma parseJSON_Raw (line : string) :
  exists entry, parseJSON la line = Some entry /\ Raw entry = line.
Proof.
  unfold parseJSON. destruct (json_Unmarshal line) as [jsonData|]; [| by eexists].
  eexists. split; [done |].
  repeat match goal with
         | |- context [match ?x with _ => _ end] => destruct x; simpl
         end; done.
Qed.

Lemma parseWithPattern_Raw (line patternName : string) (matches : list string) :
  exists entry,
    parseWithPattern la line patternName matches = Some entry /\ Raw entry = line.
Proof.
  unfold parseWithPattern. eexists. split; [done |].
  repeat match goal with
         | |- context [if ?x then _ else _] => destruct x; simpl
         | |- context [match ?x with _ => _ end] => destruct x; simpl
         end; done.
Qed.

Lemma parseGeneric_loop_Raw (line : string) (remaining : list string) (entry : LogEntry) :
  Raw (parseGeneric_loop line remaining entry) = Raw entry
  /\ Source (parseGeneric_loop line remaining entry) = Source entry.
Proof.
  induction remaining as [|pattern remaining IH]; simpl; [done |].
  destruct (len line >=? len pattern)%Z; [| done].
  destruct (time_Parse _ _); [| done].
  by destruct (len line >? len pattern + 1)%Z.
Qed.

Lemma parseGeneric_Raw (line : string) :
  exists entry, parseGeneric la line = Some entry /\ Raw entry = line.
Proof.
  unfold parseGeneric. eexists. split; [done |]. unfold set_Level. cbn [Raw].
  by rewrite (proj1 (parseGeneric_loop_Raw _ _ _)).
Qed.

Lemma parseLine_loop_Raw (line : string) (names : list string) :
  exists entry, parseLine_loop la line names = Some entry /\ Raw entry = line.
Proof.
  induction names as [|name names IH]; simpl.
  - apply parseGeneric_Raw.
  - destruct (patterns la !! name) as [regex|]; [| done].
    destruct (FindStringSubmatch regex line); [| done].
    apply parseWithPattern_Raw.
Qed.


Lemma parseLine_loop_none (line : string) (names : list string) :
  Forall (fun n => shape_matches la line n = false) names ->
  parseLine_loop la line names = parseGeneric la line.
Proof.
  induction 1 as [|n names Hn _ IH]; simpl; [done |].
  unfold shape_matches in Hn. destruct (patterns la !! n) as [r|]; [| done].
  by destruct (FindStringSubmatch r line).
Qed.

Lemma parseGeneric_loop_none (line : string) (remaining : list string) (entry : LogEntry) :
  Forall (fun pattern => attempt line pattern = None) remaining ->
  parseGeneric_loop line remaining entry = entry.
Proof.
  induction 1 as [|pattern remaining Hp _ IH]; simpl; [done |].
  unfold attempt in Hp. destruct (len line >=? len pattern)%Z; [| done].
  by rewrite Hp.
Qed.


End Parser.

(** C1 (amended): [parseLine] returns a record for every line and every
    format, and its raw field is the line.  When the line goes to the
    JSON extractor and does not parse as JSON, the message is the line
    and every other field is empty.  When it goes to the matchers, none
    has its shape and no timestamp format of the fallback parses, the
    message is the line, timestamp and source are unset, and the level is
    the one inferred from the line. *)
Theorem parseLine_never_fails {P : Platform} (la : LogAnalyzer) (line format : string) :
  exists entry,
    parseLine la line format = Some entry
    /\ Raw entry = line
    /\ (takes_json line format = true ->
        json_Unmarshal line = None ->
        entry = entry_Raw_Message line)
    /\ (takes_json line format = false ->
        Forall (fun name => shape_matches la line name = false) (names_for format) ->
        Forall (fun pattern => attempt line pattern = None) timePatterns ->
        entry = {| Timestamp := 0; Level := inferLogLevel la line; Message := line;
                   Source := ""; Raw := line |}).
Proof.
  rewrite parseLine_unfold. destruct (takes_json line format).
  - destruct (parseJSON_Raw la line) as (entry & Hentry & Hraw).
    exists entry. repeat split; try done.
    intros _ Hjson. unfold parseJSON in Hentry. rewrite Hjson in Hentry. congruence.
  - destruct (parseLine_loop_Raw la line (names_for format)) as (entry & Hentry & Hraw).
    exists entry. repeat split; try done.
    intros _ Hnames Htimes. rewrite parseLine_loop_none in Hentry by done.
    unfold parseGeneric in Hentry. rewrite parseGeneric_loop_none in Hentry by done.
    by injection Hentry as <-.
Qed.




(** ** The top tables *)

Lemma less_false (a b : kv) : less b a = false <-> by_count a b.
Proof. unfold less, by_count. rewrite Z.gtb_ltb, Z.ltb_ge. done. Qed.

Lemma StronglySorted_impl {A : Type} (R R' : relation A) (l : list A) :
  (forall a b, R a b -> R' a b) -> StronglySorted R l -> StronglySorted R' l.
Proof.
  intros HR. induction 1 as [|a l _ IH Hall]; [constructor |].
  constructor; [done |]. eapply Forall_impl; [done |]. apply HR.
Qed.

Lemma sort_Slice_by_count (ss sorted : list kv) :
  sort_Slice less ss sorted <-> sorted ≡ₚ ss /\ StronglySorted by_count sorted.
Proof.
  unfold sort_Slice. split; intros [Hperm Hsorted]; (split; [done |]).
  - revert Hsorted. apply StronglySorted_impl. intros a b. apply less_false.
  - revert Hsorted. apply StronglySorted_impl. intros a b. apply less_false.
Qed.

Lemma print_loop_take (ss : list kv) (i limit : Z) :
  print_loop i ss limit = firstn (Z.to_nat (limit - i)) ss.
Proof.
  revert i. induction ss as [|x ss IH]; intros i; simpl.
  - by rewrite take_nil.
  - destruct (Z.geb_spec i limit) as [Hge|Hlt].
    + by replace (Z.to_nat (limit - i)) with 0%nat by lia.
    + rewrite IH. replace (Z.to_nat (limit - i)) with (S (Z.to_nat (limit - (i + 1)))) by lia.
      done.
Qed.

Lemma insert_sorted_Permutation (x : kv) (l : list kv) :
  insert_sorted x l ≡ₚ x :: l.
Proof.
  induction l as [|y l IH]; simpl; [done |].
  destruct (less y x); [| done]. rewrite IH. apply Permutation_swap.
Qed.

Lemma stable_sort_Permutation (l : list kv) : stable_sort l ≡ₚ l.
Proof.
  induction l as [|x l IH]; simpl; [done |].
  by rewrite insert_sorted_Permutation, IH.
Qed.

Lemma insert_sorted_sorted (x : kv) (l : list kv) :
  StronglySorted by_count l -> StronglySorted by_count (insert_sorted x l).
Proof.
  induction 1 as [|y l Hl IH Hall]; simpl.
  - by repeat constructor.
  - destruct (less y x) eqn:Hyx.
    + constructor; [done |]. rewrite insert_sorted_Permutation.
      constructor; [| done]. unfold less, by_count in *. lia.
    + apply less_false in Hyx. constructor; [by constructor |].
      constructor; [done |]. eapply Forall_impl; [done |].
      unfold by_count in *. intros z. simpl. lia.
Qed.

Lemma stable_sort_sorted (l : list kv) : StronglySorted by_count (stable_sort l).
Proof.
  induction l as [|x l IH]; simpl; [constructor | by apply insert_sorted_sorted].
Qed.

(** The sort depends on the counts alone and is stable: pairs of one
    count keep the order they had. *)
Lemma insert_sorted_stable (v : Z) (x : kv) (l : list kv) :
  List.filter (fun a => (a.2 =? v)%Z) (insert_sorted x l)
  = List.filter (fun a => (a.2 =? v)%Z) (x :: l).
Proof.
  induction l as [|y l IH]; [done |].
  cbn [insert_sorted]. destruct (less y x) eqn:Hyx; [| done].
  cbn [List.filter] in *. rewrite IH. unfold less in Hyx.
  destruct (Z.eqb_spec (x.2) v), (Z.eqb_spec (y.2) v); try done. lia.
Qed.

Lemma stable_sort_stable (v : Z) (l : list kv) :
  List.filter (fun a => (a.2 =? v)%Z) (stable_sort l)
  = List.filter (fun a => (a.2 =? v)%Z) l.
Proof.
  induction l as [|x l IH]; [done |].
  cbn [stable_sort foldr]. rewrite insert_sorted_stable.
  cbn [List.filter]. fold (stable_sort l). by rewrite IH.
Qed.

Lemma stable_sort_sorted_id (l : list kv) :
  StronglySorted by_count l -> stable_sort l = l.
Proof.
  induction 1 as [|x l Hl IH Hall]; [done |].
  cbn [stable_sort foldr]. fold (stable_sort l). rewrite IH.
  destruct Hall as [|y l Hy _]; [done |].
  simpl. apply less_false in Hy. by rewrite Hy.
Qed.

Lemma printTopMap_is_top (la : LogAnalyzer) (m : gmap string Z) (limit : nat)
    (out : list kv) :
  printTopMap la m (Z.of_nat limit) out -> is_top limit m out.
Proof.
  intros [ss sorted Hss Hsort]. apply sort_Slice_by_count in Hsort as [Hperm Hsorted].
  rewrite print_loop_take, Z.sub_0_r, Nat2Z.id.
  assert (sorted ≡ₚ map_to_list m) as Hm by (by rewrite Hperm).
  pose proof Hsorted as Hsplit. rewrite <- (take_drop limit sorted) in Hsplit.
  apply StronglySorted_app in Hsplit as (Hcut & Htake & _).
  split; [| split; [| split; [| split]]].
  - rewrite length_take. lia.
  - done.
  - intros k v Hin. apply elem_of_map_to_list. rewrite <- Hm.
    revert Hin. apply subseteq_take.
  - exists (skipn limit sorted). by rewrite take_drop.
  - exists sorted. split; [done |]. by rewrite stable_sort_sorted_id.
Qed.

(** The run [top_of] is one of the runs of [printTopMap]. *)
Lemma printTopMap_top_of (la : LogAnalyzer) (m : gmap string Z) (limit : Z) :
  printTopMap la m limit (top_of m limit).
Proof.
  unfold top_of. apply (printTopMap_run la m limit (map_to_list m)); [done |].
  apply sort_Slice_by_count. split.
  - apply stable_sort_Permutation.
  - apply stable_sort_sorted.
Qed.

Lemma is_top_empty (limit : nat) (m : gmap string Z) :
  size m = 0%nat -> is_top limit m [].
Proof.
  intros Hm. apply map_size_empty_iff in Hm as ->.
  split; [simpl; lia |]. split; [constructor |]. split; [by intros k v ?%elem_of_nil |].
  split.
  - exists []. rewrite map_to_list_empty. split; [done |]. by intros a b ?%elem_of_nil.
  - exists []. rewrite map_to_list_empty. split; [done |]. by destruct limit.
Qed.

(** C8: each top table of the statistics has at most 5 lines, in
    descending order of count; its lines are pairs of the frequency
    table; it is cut after the sort, so no pair left out has a greater
    count than a printed one; and it is what a stable sort on the count
    alone gives on some order of the pairs of the table, cut to 5. *)
Theorem top_tables_top5 (la : LogAnalyzer) (sources errors : list kv) :
  top_tables la sources errors ->
  is_top 5 (TopSources (showStats la)) sources
  /\ is_top 5 (TopErrors (showStats la)) errors.
Proof.
  intros [Hsources Herrors]. split.
  - destruct (bool_decide (0 < size (TopSources (showStats la)))%nat) eqn:Hsize.
    + apply (printTopMap_is_top la _ 5%nat). exact Hsources.
    + apply bool_decide_eq_false in Hsize. subst. apply is_top_empty. lia.
  - destruct (bool_decide (0 < size (TopErrors (showStats la)))%nat) eqn:Hsize.
    + apply (printTopMap_is_top la _ 5%nat). exact Herrors.
    + apply bool_decide_eq_false in Hsize. subst. apply is_top_empty. lia.
Qed.

(** ** Runs on sample lines *)

Example generic_run :
  parseLine (P := goPlatform) NewLogAnalyzer
    "2024-01-01 10:00:00 [INFO] Application started" "auto"
  = Some {| Timestamp := GoTime.Date 2024 1 1 10 0 0 0; Level := "INFO";
            Message := "Application started"; Source := "";
            Raw := "2024-01-01 10:00:00 [INFO] Application started" |}.
Proof. vm_compute. reflexivity. Qed.

Example json_run :
  parseLine (P := goPlatform) NewLogAnalyzer
    (quoted "{'timestamp':'2024-01-01T10:00:00Z','level':'error','message':'boom','source':'db'}")
    "auto"
  = Some {| Timestamp := GoTime.Date 2024 1 1 10 0 0 0; Level := "ERROR";
            Message := "boom"; Source := "db";
            Raw := quoted "{'timestamp':'2024-01-01T10:00:00Z','level':'error','message':'boom','source':'db'}" |}.
Proof. vm_compute. reflexivity. Qed.

Example apache_run :
  parseLine (P := goPlatform) NewLogAnalyzer
    (quoted "127.0.0.1 - - [10/Oct/2023:13:55:36 -0700] 'GET /index.html' 200 2326") "auto"
  = Some {| Timestamp := GoTime.Date 2023 10 10 20 55 36 0; Level := "INFO";
            Message := "GET /index.html"; Source := "127.0.0.1";
            Raw := quoted "127.0.0.1 - - [10/Oct/2023:13:55:36 -0700] 'GET /index.html' 200 2326" |}.
Proof. vm_compute. reflexivity. Qed.

Example broken_json_run :
  parseLine (P := goPlatform) NewLogAnalyzer "{not json" "auto"
  = Some (entry_Raw_Message "{not json").
Proof. vm_compute. reflexivity. Qed.

(** Under [AddDate] the last day of February of year 0 lands on March 1
    of a year that is not a leap year. *)
Example AddDate_leap_day :
  (t ← GoTime.Parse "Jan 2 15:04:05" "Feb 29 12:00:00"; Some (GoTime.AddDate t 2023 0 0))
  = Some (GoTime.Date 2023 3 1 12 0 0 0).
Proof. vm_compute. reflexivity. Qed.

(** C1, as stated, fails on the line [error] under auto: no pattern has
    its shape and it is no JSON document, yet the record carries the
    level ERROR, which Level Inference read from the line. *)
Lemma parseLine_worst_case_has_level :
  takes_json "error" "auto" = false
  /\ Forall (fun name => shape_matches NewLogAnalyzer "error" name = false)
       ["generic"; "syslog"; "apache"; "nginx"; "json"]
  /\ json_Unmarshal (Platform := goPlatform) "error" = None
  /\ parseLine (P := goPlatform) NewLogAnalyzer "error" "auto"
     = Some {| Timestamp := 0; Level := "ERROR"; Message := "error"; Source := "";
               Raw := "error" |}
  /\ parseLine (P := goPlatform) NewLogAnalyzer "error" "auto"
     <> Some (entry_Raw_Message "error").
Proof.
  split; [by vm_compute |]. split; [repeat constructor |].
  split; [by vm_compute |]. split; [by vm_compute |].
  vm_compute. discriminate.
Qed.



(** C6 on an entry without timestamp, under both time bounds. *)
Lemma unset_timestamp_passes_time_range_witness :
  IsZero (Timestamp untimed_entry) = true
  /\ before_start (filters bounded_analyzer) untimed_entry = false
  /\ after_end (filters bounded_analyzer) untimed_entry = false
  /\ matchesFilters bounded_analyzer untimed_entry
     = level_ok (filters bounded_analyzer) untimed_entry
       && source_ok (filters bounded_analyzer) untimed_entry
       && keyword_ok (filters bounded_analyzer) untimed_entry
  /\ (untimed_entry ∈ entries bounded_analyzer ->
      (untimed_entry ∈ filterEntries bounded_analyzer <->
       level_ok (filters bounded_analyzer) untimed_entry
       && source_ok (filters bounded_analyzer) untimed_entry
       && keyword_ok (filters bounded_analyzer) untimed_entry = true)).
Proof.
  split; [reflexivity |].
  apply (unset_timestamp_passes_time_range bounded_analyzer untimed_entry).
  reflexivity.
Defined.

(** C8 on the statistics of ten lines from six hosts. *)
Lemma top_tables_top5_witness :
  is_top 5 (TopSources (showStats hosts_analyzer))
    (top_of (TopSources (showStats hosts_analyzer)) 5)
  /\ is_top 5 (TopErrors (showStats hosts_analyzer))
       (top_of (TopErrors (showStats hosts_analyzer)) 5).
Proof.
  apply (top_tables_top5 hosts_analyzer). split.
  - destruct (bool_decide _) eqn:Hsize; [apply printTopMap_top_of |].
    vm_compute in Hsize. discriminate.
  - destruct (bool_decide _) eqn:Hsize; [apply printTopMap_top_of |].
    vm_compute in Hsize. discriminate.
Defined.

Example hosts_tables :
  top_of (TopSources (showStats hosts_analyzer)) 5
  = [("beta", 3); ("zeta", 2); ("gamma", 1); ("epsilon", 1); ("alpha", 1)]
  /\ size (TopSources (showStats hosts_analyzer)) = 6%nat
  /\ top_of (TopErrors (showStats hosts_analyzer)) 5
     = [("error: timeout", 2); ("critical: disk", 1); ("fatal: no route", 1)].
Proof. by vm_compute. Qed.

(** C2: in statistics mode with the level filter ERROR, on the three
    sample lines, the statistics count all three entries, of which the
    filter keeps one. *)
Lemma main_statistics_ignore_filters :
  exists s analyzer,
    main (P := goPlatform) stats_flags (Some sample_log) = Statistics s
    /\ analyzer
       = parseFile (P := goPlatform)
           (set_filters {| FLevel := "ERROR"; StartTime := None; EndTime := None;
                           FSource := ""; Keyword := "" |} NewLogAnalyzer)
           sample_log "auto"
    /\ s = showStats analyzer
    /\ TotalLines s = 3 /\ ErrorCount s = 1 /\ WarnCount s = 1 /\ InfoCount s = 1
    /\ slen (filterEntries analyzer) = 1
    /\ TotalLines (showStats (set_entries (filterEntries analyzer) analyzer)) = 1.
Proof. eexists _, _. repeat split; by vm_compute. Qed.

(** The statistics of [main] never depend on the filters: they are those
    of all the entries of the file. *)
Lemma parseLine_loop_set_filters {P : Platform} (f : Filters) (la : LogAnalyzer)
    (line : string) (names : list string) :
  parseLine_loop (set_filters f la) line names = parseLine_loop la line names.
Proof.
  induction names as [|name names IH]; simpl; [done |].
  destruct (patterns la !! name) as [regex|]; [| done].
  by destruct (FindStringSubmatch regex line).
Qed.

Lemma parseFile_set_filters {P : Platform} (f : Filters) (lines : list string)
    (format : string) (la : LogAnalyzer) :
  parseFile (set_filters f la) lines format = set_filters f (parseFile la lines format).
Proof.
  unfold parseFile. revert la. induction lines as [|line lines IH]; intros la; [done |].
  cbn [foldl]. rewrite <- IH. f_equal.
  rewrite !parseLine_unfold, parseLine_loop_set_filters.
  change (parseJSON (set_filters f la) line) with (parseJSON la line).
  by destruct (if takes_json line format then _ else _).
Qed.

Lemma main_statistics_all_entries {P : Platform} (fl : Flags) (lines : list string)
    (s : LogStats) :
  main fl (Some lines) = Statistics s ->
  s = showStats (parseFile NewLogAnalyzer lines (format fl)).
Proof.
  unfold main. destruct (filename fl =? "")%string; [done |].
  destruct (time_flag (startTime fl)); [done |].
  destruct (time_flag (endTime fl)); [done |].
  destruct (follow fl); [done |]. destruct (flag_stats fl); [| done].
  intros [= <-]. by rewrite parseFile_set_filters.
Qed.

(** Every order of equal counts is a run of [printTopMap]: nothing but
    the count orders the lines. *)
Lemma printTopMap_stable_sort (la : LogAnalyzer) (m : gmap string Z) (limit : nat)
    (out : list kv) :
  printTopMap la m (Z.of_nat limit) out
  <-> exists ss, ss ≡ₚ map_to_list m /\ out = firstn limit (stable_sort ss).
Proof.
  split.
  - intros Hout. by destruct (printTopMap_is_top la m limit out Hout) as (_ & _ & _ & _ & ?).
  - intros (ss & Hss & ->).
    replace (firstn limit (stable_sort ss))
      with (print_loop 0 (stable_sort ss) (Z.of_nat limit))
      by (by rewrite print_loop_take, Z.sub_0_r, Nat2Z.id).
    apply (printTopMap_run la m _ ss); [done |].
    apply sort_Slice_by_count. split.
    + apply stable_sort_Permutation.
    + apply stable_sort_sorted.
Qed.

(** * Further properties *)

(** ** Reading a file *)

Lemma parseLine_Raw {P : Platform} (la : LogAnalyzer) (line format : string) :
  exists entry, parseLine la line format = Some entry /\ Raw entry = line.
Proof.
  rewrite parseLine_unfold. destruct (takes_json line format).
  - apply parseJSON_Raw.
  - apply parseLine_loop_Raw.
Qed.

(** Parsing reads the patterns of the analyzer, not its entries or its
    filters. *)
Lemma parseLine_loop_frame {P : Platform} (la la' : LogAnalyzer) (line : string)
    (names : list string) :
  patterns la = patterns la' ->
  parseLine_loop la line names = parseLine_loop la' line names.
Proof.
  intros Hpatterns. induction names as [|name names IH]; simpl; [done |].
  rewrite <- Hpatterns. destruct (patterns la !! name) as [regex|]; [| done].
  by destruct (FindStringSubmatch regex line).
Qed.

Lemma parseLine_frame {P : Platform} (la la' : LogAnalyzer) (line format : string) :
  patterns la = patterns la' -> parseLine la line format = parseLine la' line format.
Proof.
  intros Hpatterns. rewrite !parseLine_unfold.
  by rewrite (parseLine_loop_frame la la').
Qed.

Lemma omap_parseLine_frame {P : Platform} (la la' : LogAnalyzer) (format : string)
    (lines : list string) :
  patterns la = patterns la' ->
  omap (fun line => parseLine la line format) lines
  = omap (fun line => parseLine la' line format) lines.
Proof.
  intros Hpatterns. induction lines as [|line lines IH]; [done |].
  cbn [omap list_omap]. by rewrite (parseLine_frame la la'), IH.
Qed.

Lemma parseFile_cons {P : Platform} (la : LogAnalyzer) (line : string)
    (lines : list string) (format : string) :
  parseFile la (line :: lines) format
  = parseFile (match parseLine la line format with
               | Some entry => set_entries (entries la ++ [entry])%list la
               | None => la
               end) lines format.
Proof. done. Qed.

Lemma parseFile_omap {P : Platform} (lines : list string) (format : string)
    (la : LogAnalyzer) :
  entries (parseFile la lines format)
  = (entries la ++ omap (fun line => parseLine la line format) lines)%list
  /\ patterns (parseFile la lines format) = patterns la
  /\ filters (parseFile la lines format) = filters la.
Proof.
  revert la. induction lines as [|line lines IH]; intros la.
  - simpl. by rewrite app_nil_r.
  - rewrite parseFile_cons. cbn [omap list_omap].
    destruct (parseLine la line format) as [entry|] eqn:Hentry.
    + destruct (IH (set_entries (entries la ++ [entry])%list la)) as (He & Hp & Hf).
      rewrite He, Hp, Hf. repeat split. cbn [entries set_entries].
      rewrite <- app_assoc. do 2 f_equal. by apply omap_parseLine_frame.
    + by destruct (IH la) as (He & Hp & Hf).
Qed.

(** X1: reading a file adds exactly one entry per line, after the
    entries the analyzer holds, in the order of the lines and each with
    its line as raw text; the patterns and the filters stay. *)
Theorem parseFile_one_entry_per_line {P : Platform} (la : LogAnalyzer)
    (lines : list string) (format : string) :
  Raw <$> entries (parseFile la lines format) = ((Raw <$> entries la) ++ lines)%list
  /\ entries la `prefix_of` entries (parseFile la lines format)
  /\ slen (entries (parseFile la lines format)) = (slen (entries la) + slen lines)%Z
  /\ patterns (parseFile la lines format) = patterns la
  /\ filters (parseFile la lines format) = filters la.
Proof.
  destruct (parseFile_omap lines format la) as (He & Hp & Hf).
  assert (Raw <$> omap (fun line => parseLine la line format) lines = lines) as Hraw.
  { clear. induction lines as [|line lines IH]; [done |]. cbn [omap list_omap].
    destruct (parseLine_Raw la line format) as (entry & -> & Hraw).
    cbn. by rewrite Hraw, IH. }
  assert (Raw <$> entries (parseFile la lines format) = ((Raw <$> entries la) ++ lines)%list)
    as Hall by (by rewrite He, fmap_app, Hraw).
  repeat split; try done.
  - rewrite He. by apply prefix_app_r.
  - apply (f_equal length) in Hall. rewrite length_app, !length_fmap in Hall.
    unfold slen. lia.
Qed.

(** ** The filter, again *)

Lemma filter_filter_same {A : Type} (f : A -> bool) (l : list A) :
  List.filter f (List.filter f l) = List.filter f l.
Proof.
  induction l as [|x l IH]; [done |]. simpl.
  destruct (f x) eqn:Hx; [| done]. simpl. by rewrite Hx, IH.
Qed.

(** X3: filtering is idempotent: the filter keeps every entry of an
    already filtered list. *)
Theorem filterEntries_idempotent (la : LogAnalyzer) :
  filterEntries (set_entries (filterEntries la) la) = filterEntries la.
Proof.
  rewrite (filterEntries_filter (set_entries (filterEntries la) la)).
  cbn [entries set_entries]. rewrite filterEntries_filter.
  apply filter_filter_same.
Qed.

(** X4: without any filter every entry passes, whatever its fields. *)
Theorem filterEntries_no_filters (la : LogAnalyzer) :
  filterEntries (set_filters no_filters la) = entries la
  /\ forall entry, matchesFilters (set_filters no_filters la) entry = true.
Proof.
  split; [| done]. rewrite filterEntries_filter. cbn [entries set_filters].
  induction (entries la) as [|e es IH]; [done |]. cbn [List.filter].
  change (matchesFilters (set_filters no_filters la) e) with true. by rewrite IH.
Qed.

(** X5: on an entry with a timestamp both time bounds are inclusive: the
    entry passes them exactly when its timestamp is not before the start
    and not after the end, so a timestamp equal to a bound passes. *)
Theorem time_bounds_inclusive (la : LogAnalyzer) (entry : LogEntry) :
  IsZero (Timestamp entry) = false ->
  matchesFilters la entry
  = level_ok (filters la) entry && source_ok (filters la) entry
    && keyword_ok (filters la) entry
    && within_bounds (filters la) (Timestamp entry).
Proof.
  intros Hset. rewrite matchesFilters_conditions.
  rewrite <- (andb_assoc _ (negb (before_start _ _)) (negb (after_end _ _))).
  f_equal. unfold before_start, after_end, within_bounds, Before, After.
  rewrite Hset. simpl.
  destruct (StartTime (filters la)) as [a|], (EndTime (filters la)) as [b|]; simpl;
    rewrite ?Z.gtb_ltb, ?Z.leb_antisym, ?andb_true_r; done.
Qed.

(** X5 on a timestamp equal to both bounds. *)
Lemma time_bounds_inclusive_witness :
  IsZero 5 = false
  /\ matchesFilters
       (set_filters {| FLevel := ""; StartTime := Some 5; EndTime := Some 5;
                       FSource := ""; Keyword := "" |} NewLogAnalyzer)
       (set_Timestamp 5 (entry_Raw "x"))
     = true.
Proof.
  split; [reflexivity |].
  exact (time_bounds_inclusive
           (set_filters {| FLevel := ""; StartTime := Some 5; EndTime := Some 5;
                           FSource := ""; Keyword := "" |} NewLogAnalyzer)
           (set_Timestamp 5 (entry_Raw "x")) eq_refl).
Defined.

(** ** Following a file *)

Lemma sapp_cons (x : ascii) (a b : string) : String x a +:+ b = String x (a +:+ b).
Proof. done. Qed.

Lemma sapp_assoc (a b c : string) : (a +:+ b) +:+ c = a +:+ (b +:+ c).
Proof. induction a as [|x a IH]; [done | by rewrite !sapp_cons, IH]. Qed.

Lemma sapp_nil_r (a : string) : a +:+ "" = a.
Proof. induction a as [|x a IH]; [done | by rewrite sapp_cons, IH]. Qed.

Lemma foldl_texts (f : LogEntry -> string) (es : list LogEntry) (out : string) :
  foldl (fun out e => out +:+ f e) out es = out +:+ texts f es.
Proof.
  revert out. induction es as [|e es IH]; intros out; cbn [foldl texts foldr].
  - by rewrite sapp_nil_r.
  - fold (texts f es). by rewrite IH, sapp_assoc.
Qed.



Section Follow.
Context {P : Platform} {Pr : Printer}.




End Follow.

(** ** Head and tail *)

(** X6: for a positive count, [getHead] is the prefix and [getTail] the
    suffix of that many entries, or the whole list when it is shorter;
    the entries before the tail and the tail make up the list. *)
Theorem getHead_getTail_bounds (la : LogAnalyzer) (es : list LogEntry) (n : Z) :
  (0 < n)%Z ->
  getHead la es n `prefix_of` es
  /\ slen (getHead la es n) = Z.min n (slen es)
  /\ getTail la es n `suffix_of` es
  /\ slen (getTail la es n) = Z.min n (slen es)
  /\ (firstn (length es - Z.to_nat n) es ++ getTail la es n)%list = es.
Proof.
  intros Hn. unfold getHead, getTail, slen.
  destruct (Z.geb_spec n (Z.of_nat (length es))) as [Hge|Hlt].
  - repeat split; try done; try lia.
    replace (length es - Z.to_nat n)%nat with 0%nat by lia. done.
  - repeat split.
    + apply prefix_take.
    + rewrite length_take. lia.
    + apply suffix_drop.
    + rewrite length_drop. lia.
    + replace (Z.to_nat (Z.of_nat (length es) - n)) with (length es - Z.to_nat n)%nat
        by lia.
      apply take_drop.
Qed.

(** X6 on two of three entries. *)
Lemma getHead_getTail_bounds_witness :
  getHead NewLogAnalyzer [entry_Raw "a"; entry_Raw "b"; entry_Raw "c"] 2
    `prefix_of` [entry_Raw "a"; entry_Raw "b"; entry_Raw "c"]
  /\ slen (getHead NewLogAnalyzer [entry_Raw "a"; entry_Raw "b"; entry_Raw "c"] 2)
     = Z.min 2 (slen [entry_Raw "a"; entry_Raw "b"; entry_Raw "c"])
  /\ getTail NewLogAnalyzer [entry_Raw "a"; entry_Raw "b"; entry_Raw "c"] 2
       `suffix_of` [entry_Raw "a"; entry_Raw "b"; entry_Raw "c"]
  /\ slen (getTail NewLogAnalyzer [entry_Raw "a"; entry_Raw "b"; entry_Raw "c"] 2)
     = Z.min 2 (slen [entry_Raw "a"; entry_Raw "b"; entry_Raw "c"])
  /\ (firstn (length [entry_Raw "a"; entry_Raw "b"; entry_Raw "c"] - Z.to_nat 2)
        [entry_Raw "a"; entry_Raw "b"; entry_Raw "c"]
      ++ getTail NewLogAnalyzer [entry_Raw "a"; entry_Raw "b"; entry_Raw "c"] 2)%list
     = [entry_Raw "a"; entry_Raw "b"; entry_Raw "c"].
Proof.
  apply (getHead_getTail_bounds NewLogAnalyzer
           [entry_Raw "a"; entry_Raw "b"; entry_Raw "c"] 2).
  lia.
Defined.

(** ** The runs of [main] *)

Lemma parseFile_Raw {P : Platform} (la : LogAnalyzer) (lines : list string)
    (format : string) :
  Raw <$> entries (parseFile la lines format) = ((Raw <$> entries la) ++ lines)%list.
Proof.
  destruct (parseFile_omap lines format la) as (-> & _ & _).
  rewrite fmap_app. f_equal.
  induction lines as [|line lines IH]; [done |]. cbn [omap list_omap].
  destruct (parseLine_Raw la line format) as (entry & -> & Hraw).
  cbn. by rewrite Hraw, IH.
Qed.

Lemma getHead_prefix (la : LogAnalyzer) (es : list LogEntry) (n : Z) :
  (0 < n)%Z ->
  getHead la es n `prefix_of` es /\ slen (getHead la es n) = Z.min n (slen es).
Proof.
  intros Hn. unfold getHead, slen.
  destruct (Z.geb_spec n (Z.of_nat (length es))) as [Hge|Hlt].
  - split; [done | lia].
  - split; [apply prefix_take | rewrite length_take; lia].
Qed.

Lemma getTail_suffix (la : LogAnalyzer) (es : list LogEntry) (n : Z) :
  (0 < n)%Z ->
  getTail la es n `suffix_of` es /\ slen (getTail la es n) = Z.min n (slen es).
Proof.
  intros Hn. unfold getTail, slen.
  destruct (Z.geb_spec n (Z.of_nat (length es))) as [Hge|Hlt].
  - split; [done | lia].
  - split; [apply suffix_drop | rewrite length_drop; lia].
Qed.

Lemma filterEntries_Forall (la : LogAnalyzer) :
  Forall (fun e => matchesFilters la e = true) (filterEntries la)
  /\ filterEntries la `sublist_of` entries la.
Proof.
  rewrite filterEntries_filter. split.
  - apply Forall_forall. intros e He. apply list_elem_of_In, filter_In in He. tauto.
  - induction (entries la) as [|e es IH]; simpl; [done |].
    destruct (matchesFilters la e); by constructor.
Qed.

(** X7: the entries that [main] hands to the output in listing mode all
    pass the filters of the command line; their raw texts are lines of
    the file, in the order of the file; and they are the first [head]
    filtered entries when [head] is positive (whatever [tail] is), else
    the last [tail] ones when [tail] is positive, else all of them. *)
Theorem main_listing {P : Platform} (fl : Flags) (lines : list string)
    (es : list LogEntry) (o : string) (v : bool) :
  main fl (Some lines) = Entries es o v ->
  o = output fl /\ v = verbose fl /\ listing_of fl lines es.
Proof.
  unfold main. destruct (filename fl =? "")%string; [done |].
  destruct (time_flag (startTime fl)) as [|start] eqn:Hstart; [done |].
  destruct (time_flag (endTime fl)) as [|end_] eqn:Hend; [done |].
  destruct (follow fl); [done |]. destruct (flag_stats fl); [done |].
  fold (main_analyzer fl start end_ lines).
  set (analyzer := main_analyzer fl start end_ lines).
  destruct (filterEntries_Forall analyzer) as [Hall Hsub].
  assert (Raw <$> entries analyzer = lines) as Hraw
    by (unfold analyzer, main_analyzer; by rewrite parseFile_Raw).
  intros [= <- <- <-]. split; [done |]. split; [done |].
  exists start, end_. split; [done |]. split; [done |].
  assert ((if (head fl >? 0)%Z then getHead analyzer (filterEntries analyzer) (head fl)
           else if (tail fl >? 0)%Z
                then getTail analyzer (filterEntries analyzer) (tail fl)
                else filterEntries analyzer) `sublist_of` filterEntries analyzer)
    as Hes.
  { destruct (head fl >? 0)%Z.
    - unfold getHead. destruct (_ >=? _)%Z; [done | apply sublist_take].
    - destruct (tail fl >? 0)%Z; [| done].
      unfold getTail. destruct (_ >=? _)%Z; [done | apply sublist_drop]. }
  split; [done |]. split.
  { apply Forall_forall. intros e He. rewrite Forall_forall in Hall.
    apply Hall. by eapply elem_of_sublist. }
  split.
  { rewrite <- Hraw. apply fmap_sublist. by etrans. }
  split; [| split].
  - intros Hhead. destruct (Z.gtb_spec (head fl) 0); [| lia]. by apply getHead_prefix.
  - intros Hhead Htail. destruct (Z.gtb_spec (head fl) 0); [lia |].
    destruct (Z.gtb_spec (tail fl) 0); [| lia]. by apply getTail_suffix.
  - intros Hhead Htail. destruct (Z.gtb_spec (head fl) 0); [lia |].
    by destruct (Z.gtb_spec (tail fl) 0); [lia |].
Qed.

(** X7 on the sample lines, with a keyword, [head] 1 and [tail] 2. *)
Lemma main_listing_witness :
  "csv" = output listing_flags /\ false = verbose listing_flags
  /\ listing_of (P := goPlatform) listing_flags sample_log
       [{| Timestamp := GoTime.Date 2024 1 1 10 0 0 0; Level := "INFO";
           Message := "Application started"; Source := "";
           Raw := "2024-01-01 10:00:00 [INFO] Application started" |}].
Proof.
  apply (main_listing (P := goPlatform) listing_flags sample_log _ "csv" false).
  vm_compute. reflexivity.
Defined.

Lemma showStats_TotalLines (la : LogAnalyzer) : TotalLines (showStats la) = slen (entries la).
Proof.
  destruct (showStats_loop_counts (entries la)
              {| stats := stats_zero (slen (entries la)); earliest := 0; latest := 0 |})
    as (Ht & _).
  simpl in *. by rewrite Ht.
Qed.

(** X8: in statistics mode the total that [main] reports is the number
    of lines of the file: every line counts, whatever the format, the
    filters, [head] and [tail]. *)
Theorem main_statistics_total_lines {P : Platform} (fl : Flags) (lines : list string)
    (s : LogStats) :
  main fl (Some lines) = Statistics s -> TotalLines s = slen lines.
Proof.
  intros Hs. apply main_statistics_all_entries in Hs as ->.
  rewrite showStats_TotalLines.
  pose proof (parseFile_Raw NewLogAnalyzer lines (format fl)) as Hraw.
  apply (f_equal length) in Hraw. rewrite !length_fmap in Hraw. simpl in Hraw.
  unfold slen. by rewrite Hraw.
Qed.

(** X8 on the sample lines under the level filter ERROR. *)
Lemma main_statistics_total_lines_witness :
  TotalLines (showStats (main_analyzer (P := goPlatform) stats_flags None None sample_log))
  = slen sample_log.
Proof.
  apply (main_statistics_total_lines (P := goPlatform) stats_flags sample_log).
  vm_compute. reflexivity.
Defined.

(** ** Edges of the line parser *)

(** X9: a line of fewer than 14 bytes is shorter than every timestamp
    format of the fallback parser, so no format is tried on it: for every
    behaviour of [time.Parse] the record has no timestamp, the line as
    message and the level inferred from the line. *)
Theorem parseGeneric_short_line {P : Platform} (la : LogAnalyzer) (line : string) :
  (len line < 14)%Z ->
  parseGeneric la line
  = Some {| Timestamp := 0; Level := inferLogLevel la line; Message := line;
            Source := ""; Raw := line |}.
Proof.
  intros Hshort. unfold parseGeneric. rewrite parseGeneric_loop_none; [done |].
  unfold timePatterns, attempt.
  repeat constructor;
    match goal with
    | |- context [(len line >=? len ?p)%Z] =>
        destruct (Z.geb_spec (len line) (len p)) as [Hge|]; [| done];
        vm_compute (len p) in Hge; lia
    end.
Qed.

(** X9 on a line of 13 bytes that starts like a timestamp. *)
Lemma parseGeneric_short_line_witness :
  parseGeneric (P := goPlatform) NewLogAnalyzer "Jan 2 15:04:0"
  = Some {| Timestamp := 0; Level := inferLogLevel NewLogAnalyzer "Jan 2 15:04:0";
            Message := "Jan 2 15:04:0"; Source := ""; Raw := "Jan 2 15:04:0" |}.
Proof.
  apply (parseGeneric_short_line (P := goPlatform) NewLogAnalyzer "Jan 2 15:04:0").
  vm_compute. reflexivity.
Defined.

Lemma patterns_NewLogAnalyzer :
  patterns NewLogAnalyzer
  = list_to_map [("generic", pattern_generic); ("syslog", pattern_syslog);
                 ("apache", pattern_apache); ("nginx", pattern_nginx);
                 ("json", pattern_json)].
Proof.
  apply map_eq. intros name. vm_compute patterns. vm_compute list_to_map. done.
Qed.

(** X10: a format name that is none of the six known ones is no error:
    the analyzer holds no pattern of that name, and every line goes to
    the fallback parser. *)
Theorem parseLine_unknown_format {P : Platform} (la : LogAnalyzer) (line format : string) :
  patterns la = patterns NewLogAnalyzer ->
  format ∉ ["apache"; "nginx"; "syslog"; "generic"; "json"; "auto"] ->
  parseLine la line format = parseGeneric la line.
Proof.
  intros Hpatterns Hformat. rewrite !not_elem_of_cons in Hformat.
  destruct Hformat as (Ha & Hn & Hs & Hg & Hj & Hauto & _).
  rewrite parseLine_unfold. unfold takes_json, names_for.
  rewrite (proj2 (String.eqb_neq format "json") Hj).
  rewrite (proj2 (String.eqb_neq format "auto") Hauto). simpl.
  rewrite Hpatterns, patterns_NewLogAnalyzer.
  rewrite not_elem_of_list_to_map_1; [done |].
  simpl. rewrite !not_elem_of_cons. repeat split; try done. apply not_elem_of_nil.
Qed.

(** X10 on a misspelt format name. *)
Lemma parseLine_unknown_format_witness :
  parseLine (P := goPlatform) NewLogAnalyzer
    "2024-01-01 10:00:00 [WARN] High memory usage" "generik"
  = parseGeneric (P := goPlatform) NewLogAnalyzer
      "2024-01-01 10:00:00 [WARN] High memory usage".
Proof.
  apply (parseLine_unknown_format (P := goPlatform) NewLogAnalyzer).
  - reflexivity.
  - rewrite !not_elem_of_cons. repeat split; try discriminate. apply not_elem_of_nil.
Defined.

(** ** The tables and the time range of the statistics *)

Lemma showStats_step_stats (st : stats_loop) (e : LogEntry) :
  stats (showStats_step st e) = count_source e (count_level e (stats st)).
Proof. unfold showStats_step. by destruct (negb (IsZero (Timestamp e))). Qed.

Lemma count_level_tables (e : LogEntry) (s : LogStats) :
  TopSources (count_level e s) = TopSources s
  /\ TopErrors (count_level e s)
     = (if (Level e =? "ERROR")%string then incr (Message e) (TopErrors s) else TopErrors s)
  /\ TimeRange (count_level e s) = TimeRange s.
Proof.
  unfold count_level.
  repeat match goal with
         | |- context [if ?b then _ else _] => destruct b
         end; done.
Qed.

Lemma count_source_tables (e : LogEntry) (s : LogStats) :
  TopSources (count_source e s)
  = (if negb (Source e =? "")%string then incr (Source e) (TopSources s) else TopSources s)
  /\ TopErrors (count_source e s) = TopErrors s
  /\ TimeRange (count_source e s) = TimeRange s.
Proof. unfold count_source. by destruct (negb (Source e =? "")%string). Qed.

Lemma lookup_incr (k k' : string) (m : gmap string Z) :
  incr k m !! k' = tally (m !! k') (if (k =? k')%string then 1 else 0).
Proof.
  unfold incr, tally. destruct (String.eqb_spec k k') as [->|Hne]; simpl.
  - by rewrite lookup_insert_eq.
  - by rewrite lookup_insert_ne.
Qed.

Lemma tally_tally (o : option Z) (a b : Z) :
  (0 <= a)%Z -> (0 <= b)%Z -> tally (tally o a) b = tally o (a + b).
Proof.
  intros Ha Hb. unfold tally.
  destruct (Z.eqb_spec a 0) as [->|Hna]; destruct (Z.eqb_spec b 0) as [->|Hnb].
  - done.
  - rewrite Z.add_0_l. by destruct (Z.eqb_spec b 0).
  - rewrite Z.add_0_r. by destruct (Z.eqb_spec a 0).
  - destruct (Z.eqb_spec (a + b) 0); [lia |]. simpl. f_equal. lia.
Qed.

Lemma showStats_loop_tables (k : string) (es : list LogEntry) (st : stats_loop) :
  TopSources (stats (foldl showStats_step st es)) !! k
  = tally (TopSources (stats st) !! k)
          (if (k =? "")%string then 0 else from_source k es)
  /\ TopErrors (stats (foldl showStats_step st es)) !! k
     = tally (TopErrors (stats st) !! k) (errors_saying k es)
  /\ TimeRange (stats (foldl showStats_step st es)) = TimeRange (stats st).
Proof.
  revert st. induction es as [|e es IH]; intros st.
  - simpl. by destruct (k =? "")%string.
  - cbn [foldl]. destruct (IH (showStats_step st e)) as (-> & -> & ->).
    rewrite showStats_step_stats.
    destruct (count_source_tables e (count_level e (stats st))) as (-> & -> & ->).
    destruct (count_level_tables e (stats st)) as (-> & -> & ->).
    unfold from_source, errors_saying, slen. cbn [List.filter].
    pose proof (Nat2Z.is_nonneg (length (List.filter (fun e => (Source e =? k)%string) es))).
    pose proof (Nat2Z.is_nonneg
                  (length (List.filter
                             (fun e => (Level e =? "ERROR")%string && (Message e =? k)%string)
                             es))).
    repeat split.
    + destruct (String.eqb_spec (Source e) "") as [Hs|Hs]; simpl.
      * destruct (String.eqb_spec k "") as [->|Hk]; [done |].
        destruct (String.eqb_spec (Source e) k); [congruence | done].
      * rewrite lookup_incr, tally_tally.
        -- f_equal. destruct (String.eqb_spec k "") as [->|Hk].
           ++ by destruct (String.eqb_spec (Source e) ""); [| simpl].
           ++ destruct (Source e =? k)%string; simpl length; lia.
        -- by destruct (Source e =? k)%string.
        -- destruct (k =? "")%string; lia.
    + destruct (Level e =? "ERROR")%string; simpl; [| done].
      rewrite lookup_incr, tally_tally.
      * f_equal. destruct (Message e =? k)%string; simpl length; lia.
      * by destruct (Message e =? k)%string.
      * lia.
Qed.

(** X11: the two frequency tables of the statistics.  The table of
    sources gives each source that is not empty and occurs its number of
    entries, and holds no other key; the table of errors gives each
    message of an entry at the level ERROR the number of such entries,
    and holds no other key. *)
Theorem showStats_frequency_tables (la : LogAnalyzer) (k : string) :
  TopSources (showStats la) !! k
  = (if (k =? "")%string then None else frequency (from_source k (entries la)))
  /\ TopErrors (showStats la) !! k = frequency (errors_saying k (entries la)).
Proof.
  destruct (showStats_loop_tables k (entries la)
              {| stats := stats_zero (slen (entries la)); earliest := 0; latest := 0 |})
    as (Hs & He & _).
  unfold showStats. cbn [TopSources TopErrors]. rewrite Hs, He. cbn.
  rewrite !lookup_empty. unfold tally, frequency. split.
  - destruct (k =? "")%string; [done |]. by destruct (_ =? 0)%Z.
  - by destruct (_ =? 0)%Z.
Qed.

Lemma stamps_cons (e : LogEntry) (es : list LogEntry) :
  stamps (e :: es)
  = if IsZero (Timestamp e) then stamps es else Timestamp e :: stamps es.
Proof. unfold stamps. cbn. by destruct (IsZero (Timestamp e)). Qed.

Lemma range_of_step (seen : list Time) (lo hi t : Time) :
  IsZero t = false ->
  range_of seen lo hi ->
  range_of (seen ++ [t])
    (if IsZero lo || Before t lo then t else lo)
    (if IsZero hi || After t hi then t else hi).
Proof.
  unfold IsZero, Before, After.
  intros Ht%Z.eqb_neq [(-> & -> & ->)|(Hlo & Hhi & Hl & Hh & Hall)].
  - right. simpl. repeat split; try done; try apply list_elem_of_here.
    repeat constructor; lia.
  - right. rewrite (proj2 (Z.eqb_neq lo 0) Hlo), (proj2 (Z.eqb_neq hi 0) Hhi).
    simpl. rewrite Z.gtb_ltb.
    assert (lo <= hi)%Z as Hle
      by (rewrite Forall_forall in Hall; specialize (Hall _ Hl); lia).
    assert (forall lo' hi', (lo' <= lo)%Z -> (hi <= hi')%Z -> (lo' <= t <= hi')%Z ->
              Forall (fun t0 => (lo' <= t0 <= hi')%Z) (seen ++ [t])) as Hwiden.
    { intros lo' hi' ? ? ?. apply Forall_app. split.
      - eapply Forall_impl; [done |]. simpl. lia.
      - apply Forall_cons. split; [done | apply Forall_nil_2]. }
    destruct (Z.ltb_spec t lo), (Z.ltb_spec hi t);
      repeat split; try done;
      rewrite ?elem_of_app, ?list_elem_of_singleton; auto;
      apply Hwiden; lia.
Qed.

Lemma showStats_loop_range (es : list LogEntry) (st : stats_loop) (seen : list Time) :
  range_of seen (earliest st) (latest st) ->
  range_of (seen ++ stamps es)
    (earliest (foldl showStats_step st es)) (latest (foldl showStats_step st es)).
Proof.
  revert st seen. induction es as [|e es IH]; intros st seen Hinv.
  - simpl. by rewrite app_nil_r.
  - cbn [foldl]. rewrite stamps_cons.
    destruct (IsZero (Timestamp e)) eqn:Hzero.
    + apply IH. unfold showStats_step. by rewrite Hzero.
    + rewrite (cons_middle (Timestamp e)), app_assoc. apply IH.
      unfold showStats_step. rewrite Hzero. cbn. by apply range_of_step.
Qed.

(** X12: the time range of the statistics is absent exactly when no
    entry has a timestamp; otherwise it is the pair of the least and the
    greatest timestamp among the entries that have one. *)
Theorem showStats_time_range (la : LogAnalyzer) :
  match TimeRange (showStats la) with
  | None => stamps (entries la) = []
  | Some (lo, hi) =>
      lo ∈ stamps (entries la) /\ hi ∈ stamps (entries la)
      /\ Forall (fun t => (lo <= t <= hi)%Z) (stamps (entries la))
  end.
Proof.
  pose proof (showStats_loop_range (entries la)
                {| stats := stats_zero (slen (entries la)); earliest := 0; latest := 0 |}
                []) as Hrange.
  destruct (showStats_loop_tables "" (entries la)
              {| stats := stats_zero (slen (entries la)); earliest := 0; latest := 0 |})
    as (_ & _ & Htr).
  unfold showStats. cbn [TimeRange]. rewrite Htr. cbn [stats stats_zero TimeRange].
  destruct Hrange as [(-> & -> & Hnone)|(Hlo & Hhi & Hl & Hh & Hall)].
  - by left.
  - done.
  - unfold IsZero. apply Z.eqb_neq in Hlo as ->, Hhi as ->. done.
Qed.

(** ** The CSV output *)

Lemma read_quoted_ReplaceAll (message rest : string) :
  HasPrefix rest DQ = false ->
  read_quoted (ReplaceAll message dquote (DQ +:+ DQ) +:+ DQ +:+ rest)
  = Some (message, rest).
Proof.
  intros Hrest. induction message as [|c message IH].
  - change (read_quoted (String dquote rest) = Some ("", rest)).
    cbn [read_quoted]. rewrite Ascii.eqb_refl. destruct rest as [|c' rest]; [done |].
    simpl in Hrest. destruct (Ascii.eqb c' dquote); [by destruct rest | done].
  - cbn [ReplaceAll]. destruct (Ascii.eqb_spec c dquote) as [->|Hc].
    + change (read_quoted
                (String dquote
                   (String dquote
                      (ReplaceAll message dquote (DQ +:+ DQ) +:+ DQ +:+ rest)))
              = Some (String dquote message, rest)).
      cbn [read_quoted]. rewrite Ascii.eqb_refl. by rewrite IH.
    + rewrite sapp_cons. cbn [read_quoted].
      rewrite (proj2 (Ascii.eqb_neq c dquote) Hc). by rewrite IH.
Qed.

(** X13: the CSV output is the header line and then one row per entry,
    in order.  A row is the timestamp (empty when unset), the level and
    the source as they are, each followed by a comma, and then the
    message between quotes with every quote of it doubled: reading the
    quoted field back gives the message and leaves the end of the line. *)
Theorem outputCSV_rows {Pr : Printer} (la : LogAnalyzer) (entries : list LogEntry) :
  outputCSV la entries
  = "Timestamp,Level,Source,Message" +:+ newline +:+ texts outputCSV_entry entries
  /\ forall entry,
      exists timestamp field,
        outputCSV_entry entry
        = timestamp +:+ "," +:+ Level entry +:+ "," +:+ Source entry +:+ "," +:+ DQ
            +:+ field
        /\ timestamp
           = (if IsZero (Timestamp entry) then ""
              else time_Format (Timestamp entry) "2006-01-02 15:04:05")
        /\ read_quoted field = Some (Message entry, newline).
Proof.
  split.
  - unfold outputCSV. by rewrite foldl_texts, sapp_assoc.
  - intros entry. unfold outputCSV_entry. eexists _, _. split; [done |]. split.
    + by destruct (IsZero (Timestamp entry)).
    + by apply read_quoted_ReplaceAll.
Qed.

Example outputCSV_quote_ex :
  ReplaceAll (quoted "say 'hi'") dquote (DQ +:+ DQ) = quoted "say ''hi''".
Proof. reflexivity. Qed.

(** ** What a match says of the line *)

Lemma slength_app (a b : string) :
  String.length (a +:+ b) = (String.length a + String.length b)%nat.
Proof. induction a as [|x a IH]; [done |]. rewrite sapp_cons. simpl. by rewrite IH. Qed.

Lemma take_app_length (w rest : string) : take (String.length w) (w +:+ rest) = w.
Proof.
  induction w as [|c w IH]; [by destruct rest |].
  rewrite sapp_cons. simpl. by rewrite IH.
Qed.

Lemma consumed_app (w rest : string) : consumed (w +:+ rest) rest = w.
Proof.
  unfold consumed. rewrite slength_app.
  replace (String.length w + String.length rest - String.length rest)%nat
    with (String.length w) by lia.
  apply take_app_length.
Qed.

Lemma rep_sound {R : Type} (p : ascii -> bool) (lo : nat) (hi : option nat)
    (s : string) (n : nat) (k : string -> option R) (res : R) :
  rep p lo hi n s k = Some res ->
  exists w rest,
    s = w +:+ rest
    /\ all_of p w = true
    /\ (lo <= n + String.length w)%nat
    /\ (forall h, hi = Some h -> (n <= h)%nat -> (n + String.length w <= h)%nat)
    /\ k rest = Some res.
Proof.
  revert n. induction s as [|c s IH]; intros n; cbn [rep].
  - destruct (Nat.leb_spec lo n) as [Hlo|]; [| done]. intros Hk.
    exists "", "". repeat split; try done; simpl; lia.
  - assert ((if (lo <=? n)%nat then k (String c s) else None) = Some res ->
            exists w rest,
              String c s = w +:+ rest /\ all_of p w = true
              /\ (lo <= n + String.length w)%nat
              /\ (forall h, hi = Some h -> (n <= h)%nat -> (n + String.length w <= h)%nat)
              /\ k rest = Some res) as Hstop.
    { destruct (Nat.leb_spec lo n) as [Hlo|]; [| done]. intros Hk.
      exists "", (String c s). repeat split; try done; simpl; lia. }
    destruct (p c && below hi n) eqn:Hpc; [| done].
    destruct (rep p lo hi (S n) s k) as [res'|] eqn:Hrep; [| done].
    intros [= ->]. apply andb_true_iff in Hpc as [Hp Hbelow].
    apply IH in Hrep as (w & rest & -> & Hw & Hlo & Hhi & Hk).
    exists (String c w), rest. repeat split; try done.
    + simpl. by rewrite Hp.
    + simpl. lia.
    + intros h -> Hn. simpl in Hbelow. apply Nat.ltb_lt in Hbelow.
      specialize (Hhi h eq_refl). simpl. lia.
Qed.

(** The matcher is sound: a result comes from a run of the expression. *)
Lemma exec_sound (input : string) (r : regex) :
  forall (s : string) (caps : list string)
         (k : string -> list string -> option (list string)) (res : list string),
    exec input r s caps k = Some res ->
    exists w rest caps',
      s = w +:+ rest /\ run input r w rest caps caps' /\ k rest caps' = Some res.
Proof.
  induction r as [|c|p|p lo hi|r1 IH1 r2 IH2|i r IH| |]; intros s caps k res; cbn [exec].
  - intros Hk. exists "", s, caps. repeat split; [constructor | done].
  - destruct s as [|c' s]; [done |]. destruct (Ascii.eqb_spec c' c) as [->|]; [| done].
    intros Hk. exists (String c ""), s, caps. repeat split; [constructor | done].
  - destruct s as [|c' s]; [done |]. destruct (p c') eqn:Hp; [| done].
    intros Hk. exists (String c' ""), s, caps. repeat split; [by constructor | done].
  - intros Hrep. apply rep_sound in Hrep as (w & rest & -> & Hw & Hlo & Hhi & Hk).
    exists w, rest, caps. repeat split; [| done]. constructor; [done | lia |].
    intros h Hh. specialize (Hhi h Hh). lia.
  - intros Hexec. apply IH1 in Hexec as (w1 & rest1 & caps1 & -> & Hrun1 & Hexec).
    apply IH2 in Hexec as (w2 & rest & caps2 & -> & Hrun2 & Hk).
    exists (w1 +:+ w2), rest, caps2. rewrite sapp_assoc. repeat split; [| done].
    by econstructor.
  - intros Hexec. apply IH in Hexec as (w & rest & caps' & -> & Hrun & Hk).
    rewrite consumed_app in Hk.
    exists w, rest, (<[i := w]> caps'). repeat split; [by constructor | done].
  - destruct (Nat.eqb_spec (String.length s) (String.length input)); [| done].
    intros Hk. exists "", s, caps. repeat split; [by constructor | done].
  - destruct s; [| done]. intros Hk. exists "", "", caps.
    repeat split; [constructor | done].
Qed.

Lemma find_from_sound (input : string) (r : regex) (s pre : string)
    (matches : list string) :
  input = pre +:+ s ->
  find_from input r s = Some matches ->
  exists pre' w rest caps,
    input = pre' +:+ w +:+ rest
    /\ run input r w rest (replicate (S (NumSubexp r)) "") caps
    /\ matches = <[0%nat := w]> caps.
Proof.
  revert pre. induction s as [|c s IH]; intros pre Hinput; cbn [find_from].
  - destruct (match_at input r "") as [ms|] eqn:Hm; [| done]. intros [= ->].
    apply exec_sound in Hm as (w & rest & caps & Hs & Hrun & Hk).
    exists pre, w, rest, caps. rewrite <- Hs. repeat split; try done.
    rewrite Hs, consumed_app in Hk. by injection Hk.
  - destruct (match_at input r (String c s)) as [ms|] eqn:Hm.
    + intros [= ->].
      apply exec_sound in Hm as (w & rest & caps & Hs & Hrun & Hk).
      exists pre, w, rest, caps. rewrite <- Hs. repeat split; try done.
      rewrite Hs, consumed_app in Hk. by injection Hk.
    + apply (IH (pre +:+ String c "")). by rewrite sapp_assoc.
Qed.

Lemma FindStringSubmatch_sound (r : regex) (line : string) (matches : list string) :
  FindStringSubmatch r line = Some matches ->
  exists pre w rest caps,
    line = pre +:+ w +:+ rest
    /\ run line r w rest (replicate (S (NumSubexp r)) "") caps
    /\ matches = <[0%nat := w]> caps.
Proof. apply (find_from_sound line r line ""). done. Qed.

(** ** The records of the access-log and of the generic shape *)

Ltac invert_run :=
  repeat match goal with
         | H : run _ (Seq _ _) _ _ _ _ |- _ => inversion H; clear H; subst
         | H : run _ (Group _ _) _ _ _ _ |- _ => inversion H; clear H; subst
         | H : run _ (Chr _) _ _ _ _ |- _ => inversion H; clear H; subst
         | H : run _ (Repeat _ _ _) _ _ _ _ |- _ => inversion H; clear H; subst
         | H : run _ BeginText _ _ _ _ |- _ => inversion H; clear H; subst
         | H : run _ EndText _ _ _ _ |- _ => inversion H; clear H; subst
         end.

(** A match that starts with the anchor starts the line. *)
Lemma anchored (pre x rest : string) :
  String.length (x +:+ rest) = String.length (pre +:+ x +:+ rest) -> pre = "".
Proof. rewrite !slength_app. destruct pre; [done |]. simpl. lia. Qed.

Lemma nonempty_length (s : string) : (1 <= String.length s)%nat -> s <> "".
Proof. intros Hs ->. simpl in Hs. lia. Qed.

Lemma decimal_digits (s : string) (acc : Z) :
  all_of cls_d s = true -> (0 <= acc)%Z ->
  exists n, decimal s acc = Some n /\ (0 <= n)%Z.
Proof.
  revert acc. induction s as [|c s IH]; intros acc Hs Hacc; simpl.
  - by exists acc.
  - simpl in Hs. apply andb_true_iff in Hs as [Hc Hs]. unfold cls_d in Hc. rewrite Hc.
    apply IH; [done |]. lia.
Qed.

(** [Atoi] on a run of digits fails only beyond the range of [int]. *)
Lemma Atoi_digits (s : string) :
  all_of cls_d s = true -> s <> "" ->
  Atoi s = if (number s <=? 2 ^ 63 - 1)%Z then Some (number s) else None.
Proof.
  intros Hs Hne. destruct (decimal_digits s 0 Hs) as (n & Hn & Hpos); [done |].
  unfold number. rewrite Hn. simpl default.
  destruct s as [|c s]; [done |].
  assert (Atoi (String c s) = n ← decimal (String c s) 0;
            if ((- 2 ^ 63 <=? n) && (n <=? 2 ^ 63 - 1))%Z then Some n else None) as ->.
  { simpl in Hs. apply andb_true_iff in Hs as [Hc _].
    destruct c as [[] [] [] [] [] [] [] []]; try discriminate Hc; reflexivity. }
  rewrite Hn. simpl. destruct (Z.leb_spec (- 2 ^ 63) n); [done | lia].
Qed.

Lemma parseWithPattern_access {P : Platform} (la : LogAnalyzer) (line name : string)
    (whole source timestamp request status : string) (more : list string) :
  name = "apache" \/ name = "nginx" ->
  parseWithPattern la line name (whole :: source :: timestamp :: request :: status :: more)
  = Some {| Timestamp := default 0 (time_Parse "02/Jan/2006:15:04:05 -0700" timestamp);
            Level := match Atoi status with
                     | Some n => if (n >=? 500)%Z then "ERROR"
                                 else if (n >=? 400)%Z then "WARN" else "INFO"
                     | None => ""
                     end;
            Message := request; Source := source; Raw := line |}.
Proof.
  intros Hname. unfold parseWithPattern, at_index, slen.
  assert (forall k,
             (Z.of_nat (length (whole :: source :: timestamp :: request :: status :: more))
              >=? k)%Z = true \/ (5 < k)%Z) as Hlen.
  { intros k.
    destruct (Z.geb_spec
                (Z.of_nat (length (whole :: source :: timestamp :: request :: status :: more)))
                k); [by left |].
    right. simpl length in *. lia. }
  destruct (Hlen 4) as [->|]; [| lia]. destruct (Hlen 5) as [->|]; [| lia].
  cbn [lookup list_lookup default].
  destruct Hname as [-> | ->]; cbn [String.eqb Ascii.eqb Bool.eqb orb]; unfold id;
    destruct (time_Parse _ timestamp); cbn [default];
    (destruct (Atoi status) as [n|];
     [destruct (n >=? 500)%Z; [done | by destruct (n >=? 400)%Z] | done]).
Qed.

(** X14: a line that the apache pattern matches starts with a client
    without white space, two more fields, a bracketed timestamp, a quoted
    request, a status of digits and a size.  Its record has the client as
    source and the request as message; its level follows the status:
    ERROR from 500, WARN from 400, else INFO, and no level at all when
    the digits of the status exceed the range of [int]. *)
Theorem apache_record_of_match {P : Platform} (la : LogAnalyzer) (line : string)
    (matches : list string) :
  FindStringSubmatch pattern_apache line = Some matches ->
  access_record la line matches.
Proof.
  intros H.
  apply FindStringSubmatch_sound in H as (pre & w & rest & caps & Hline & Hrun & ->).
  cbv [pattern_apache cat plus star none_of NumSubexp Nat.max] in Hrun.
  invert_run.
  match goal with
  | H : String.length _ = String.length _ |- _ => apply anchored in H as ->
  end.
  match goal with
  | Hsrc : all_of cls_S ?source = true, Hident : all_of cls_S ?ident = true,
    Huser : all_of cls_S ?user = true,
    Hts : all_of (cls_set true ["]"%char]) ?timestamp = true,
    Hreq : all_of (cls_set true [dquote]) ?request = true,
    Hstatus : all_of cls_d ?status = true, Hsize : all_of cls_d ?size = true
    |- access_record _ (_ +:+ (_ +:+ ?source +:+ _ +:+ ?ident +:+ _ +:+ ?user +:+ _ +:+ _
                                  +:+ ?timestamp +:+ _ +:+ _ +:+ _ +:+ ?request +:+ _ +:+ _
                                  +:+ ?status +:+ _ +:+ ?size) +:+ _) _ =>
      exists source, ident, user, timestamp, request, status, size, rest;
      assert (status <> "") by (by apply nonempty_length);
      assert (source <> "") by (by apply nonempty_length);
      change ("" +:+ ?x) with x; rewrite !sapp_assoc;
      split; [reflexivity |]; split; [done |]; split; [done |]; split; [done |];
      match goal with
      | |- parseWithPattern _ _ _ ?ms = _ =>
          change ms with [source +:+ " " +:+ ident +:+ " " +:+ user +:+ " " +:+ "["
                            +:+ timestamp +:+ "]" +:+ " " +:+ DQ +:+ request +:+ DQ
                            +:+ " " +:+ status +:+ " " +:+ size;
                          source; timestamp; request; status; size]
      end;
      rewrite parseWithPattern_access by (by left); rewrite Atoi_digits by done;
      do 2 f_equal; rewrite (Z.geb_leb (number status));
      destruct (Z.leb_spec (number status) (2 ^ 63 - 1)),
               (Z.leb_spec (2 ^ 63) (number status)); try lia; done
  end.
Qed.

(** X14 on an access-log line with status 503. *)
Lemma apache_record_of_match_witness :
  access_record (P := goPlatform) NewLogAnalyzer access_line
    [access_line; "127.0.0.1"; "10/Oct/2023:13:55:36 -0700"; "GET /index.html"; "503";
     "2326"].
Proof.
  apply (apache_record_of_match (P := goPlatform) NewLogAnalyzer access_line).
  vm_compute. reflexivity.
Defined.

Lemma parseWithPattern_generic {P : Platform} (la : LogAnalyzer) (line : string)
    (whole stamp level message : string) (more : list string) :
  parseWithPattern la line "generic" (whole :: stamp :: level :: message :: more)
  = Some {| Timestamp := default 0 (time_Parse "2006-01-02 15:04:05" stamp);
            Level := ToUpper level; Message := message; Source := ""; Raw := line |}.
Proof.
  unfold parseWithPattern, at_index, slen.
  destruct (Z.geb_spec (Z.of_nat (length (whole :: stamp :: level :: message :: more))) 4)
    as [_|Hlen]; [| simpl length in Hlen; lia].
  cbn [lookup list_lookup default String.eqb Ascii.eqb Bool.eqb]. unfold id.
  by destruct (time_Parse _ stamp).
Qed.

(** X15: a line that the generic pattern matches is a date and time of
    at least 19 bytes, white space, a level of word characters between
    brackets, white space and a message without line feed.  Its record
    has the message, no source, and as level the bracketed word in upper
    case, whether it is one of the four known levels or not; the
    timestamp is unset when the date and time do not parse. *)
Theorem generic_record_of_match {P : Platform} (la : LogAnalyzer) (line : string)
    (matches : list string) :
  FindStringSubmatch pattern_generic line = Some matches ->
  generic_record la line matches.
Proof.
  intros H.
  apply FindStringSubmatch_sound in H as (pre & w & rest & caps & Hline & Hrun & ->).
  cbv [pattern_generic cat plus star exactly NumSubexp Nat.max] in Hrun.
  invert_run.
  match goal with
  | H : String.length _ = String.length _ |- _ => apply anchored in H as ->
  end.
  match goal with
  | Hlevel : all_of cls_w ?level = true, Hmessage : all_of cls_dot ?message = true,
    Hgap : all_of cls_s ?gap = true, Hgap' : all_of cls_s ?gap' = true
    |- generic_record _ (_ +:+ (_ +:+ ?stamp +:+ ?gap +:+ _ +:+ ?level +:+ _ +:+ ?gap'
                                   +:+ ?message) +:+ _) _ =>
      exists stamp, gap, level, gap', message, rest;
      assert (level <> "") by (by apply nonempty_length);
      assert (gap <> "") by (by apply nonempty_length);
      assert (gap' <> "") by (by apply nonempty_length);
      change ("" +:+ ?x) with x;
      split; [by rewrite !sapp_assoc |];
      split; [rewrite !slength_app; simpl; lia |];
      split; [done |]; split; [done |]; split; [done |]; split; [done |];
      match goal with
      | |- parseWithPattern _ _ _ ?ms = _ =>
          change ms with [stamp +:+ gap +:+ "[" +:+ level +:+ "]" +:+ gap' +:+ message;
                          stamp; level; message]
      end;
      apply parseWithPattern_generic
  end.
Qed.

(** X15 on a line with the level [notice]. *)
Lemma generic_record_of_match_witness :
  generic_record (P := goPlatform) NewLogAnalyzer notice_line
    [notice_line; "2024-01-01 10:00:00"; "notice"; "disk at 91%"].
Proof.
  apply (generic_record_of_match (P := goPlatform) NewLogAnalyzer notice_line).
  vm_compute. reflexivity.
Defined.

Example notice_run :
  parseLine (P := goPlatform) NewLogAnalyzer notice_line "auto"
  = Some {| Timestamp := GoTime.Date 2024 1 1 10 0 0 0; Level := "NOTICE";
            Message := "disk at 91%"; Source := ""; Raw := notice_line |}.
Proof. vm_compute. reflexivity. Qed.

(** ** The JSON extractor *)



(** ** The filter in words *)


(** ** The level flag *)

(** X18: the case of the letters of the level flag does not matter:
    [main] behaves as with the flag in upper case. *)
Theorem main_level_flag_case {P : Platform} (fl : Flags) (file : option (list string)) :
  main fl file = main (with_level (ToUpper (level fl)) fl) file.
Proof. unfold main. cbn [with_level filename startTime endTime level source keyword
                          follow format flag_stats head tail output verbose].
  by rewrite ToUpper_ToUpper.
Qed.
